(** * EnrollmentModal: the enrollment and payment workflow

    A shallow embedding of [src/components/EnrollmentModal.tsx].  The React
    component is modelled as an event-driven machine: the [useState] cells
    form a record, every handler is a function on that record, and every
    [await] splits a handler into two segments joined by a pending
    continuation that keeps the render it closed over. *)

From Stdlib Require Import ZArith String Ascii List Bool Lia.
From stdpp Require Import base option list gmap.

Open Scope Z_scope.

(** ** JavaScript strings

    A JavaScript string is a sequence of UTF-16 code units. *)

Abbreviation JsString := (list N).

(** An ASCII literal of the source as a sequence of code units. *)
Fixpoint js (s : string) : JsString :=
  match s with
  | EmptyString => []
  | String a s' => N_of_ascii a :: js s'
  end.

(** ECMAScript [WhiteSpace] and [LineTerminator] code units, the ones that
    [String.prototype.trim] strips. *)
Definition isWhiteSpace (c : N) : bool :=
  ((9 <=? c) && (c <=? 13) || (c =? 32) || (c =? 160) || (c =? 5760)
   || (8192 <=? c) && (c <=? 8202) || (c =? 8232) || (c =? 8233)
   || (c =? 8239) || (c =? 8287) || (c =? 12288) || (c =? 65279))%N.

Fixpoint trimStart (s : JsString) : JsString :=
  match s with
  | [] => []
  | c :: s' => if isWhiteSpace c then trimStart s' else s
  end.

Definition trimEnd (s : JsString) : JsString := rev (trimStart (rev s)).

Definition trim (s : JsString) : JsString := trimEnd (trimStart s).

(** Truthiness of a string: only the empty string is falsy. *)
Definition truthy (s : JsString) : bool :=
  match s with [] => false | _ :: _ => true end.

(** [s.split(' ')]: the segments between single spaces. *)
Fixpoint split_space (s : JsString) : list JsString :=
  match s with
  | [] => [[]]
  | c :: s' =>
      if (c =? 32)%N then [] :: split_space s'
      else match split_space s' with
           | seg :: segs => (c :: seg) :: segs
           | [] => [[c]]
           end
  end.

(** [a || ''] on a possibly undefined string. *)
Definition orEmpty (o : option JsString) : JsString :=
  match o with
  | Some s => s
  | None => []
  end.

(** [o || fallback] on a possibly undefined string: the empty string is
    falsy too. *)
Definition orString (o : option JsString) (fallback : JsString) : JsString :=
  match o with
  | Some s => if truthy s then s else fallback
  | None => fallback
  end.

(** [o || null] on a possibly undefined string. *)
Definition orNull (o : option JsString) : option JsString :=
  match o with
  | Some s => if truthy s then Some s else None
  | None => None
  end.

(** [n || 0] on a possibly null number. *)
Definition orZero (o : option Z) : Z :=
  match o with
  | Some n => if n =? 0 then 0 else n
  | None => 0
  end.

(** ** Props, context and state *)

Record Course := {
  course_id : JsString;
  title : JsString;
  thumbnail_url : JsString;
  is_premium : bool;
  creator : JsString
}.

Record User := { user_id : JsString }.

Record Profile := {
  name : option JsString;
  email_of : option JsString
}.

(** What one render receives from its parent and from the [useAuth] and
    [useEnrollment] hooks. *)
Record Props := {
  course : Course;
  isOpen : bool;
  user : option User;
  profile : option Profile;
  isLoading : bool
}.

Inductive Step := details | payment | processing | success | error.

Inductive PaymentMethod := eversend | flutterwave.

Record FormData := {
  firstName : JsString;
  lastName : JsString;
  email : JsString;
  phoneNumber : JsString;
  acceptTerms : bool
}.

Record PromoDiscount := {
  percentage : option Z;
  amount : option Z
}.

(** The [useState] cells of the component.  Prices are amounts in whole
    units of the currency; the component compares them with zero, stores
    them and passes them on, and does no arithmetic on them. *)
Record State := {
  step : Step;
  formData : FormData;
  coursePrice : Z;
  paymentMethod : PaymentMethod;
  errorMessage : option JsString;
  enrollmentId : option JsString;
  promoCode : JsString;
  promoValidating : bool;
  promoError : option JsString;
  promoDiscount : option PromoDiscount;
  finalPrice : Z
}.

#[global] Instance Step_eq_dec : EqDecision Step.
Proof. solve_decision. Defined.

#[global] Instance PaymentMethod_eq_dec : EqDecision PaymentMethod.
Proof. solve_decision. Defined.

(** The setters returned by [useState]. *)
Definition setStep (v : Step) (s : State) : State :=
  {| step := v; formData := formData s; coursePrice := coursePrice s;
     paymentMethod := paymentMethod s; errorMessage := errorMessage s;
     enrollmentId := enrollmentId s; promoCode := promoCode s;
     promoValidating := promoValidating s; promoError := promoError s;
     promoDiscount := promoDiscount s; finalPrice := finalPrice s |}.

Definition setFormData (v : FormData) (s : State) : State :=
  {| step := step s; formData := v; coursePrice := coursePrice s;
     paymentMethod := paymentMethod s; errorMessage := errorMessage s;
     enrollmentId := enrollmentId s; promoCode := promoCode s;
     promoValidating := promoValidating s; promoError := promoError s;
     promoDiscount := promoDiscount s; finalPrice := finalPrice s |}.

Definition setCoursePrice (v : Z) (s : State) : State :=
  {| step := step s; formData := formData s; coursePrice := v;
     paymentMethod := paymentMethod s; errorMessage := errorMessage s;
     enrollmentId := enrollmentId s; promoCode := promoCode s;
     promoValidating := promoValidating s; promoError := promoError s;
     promoDiscount := promoDiscount s; finalPrice := finalPrice s |}.

Definition setPaymentMethod (v : PaymentMethod) (s : State) : State :=
  {| step := step s; formData := formData s; coursePrice := coursePrice s;
     paymentMethod := v; errorMessage := errorMessage s;
     enrollmentId := enrollmentId s; promoCode := promoCode s;
     promoValidating := promoValidating s; promoError := promoError s;
     promoDiscount := promoDiscount s; finalPrice := finalPrice s |}.

Definition setErrorMessage (v : option JsString) (s : State) : State :=
  {| step := step s; formData := formData s; coursePrice := coursePrice s;
     paymentMethod := paymentMethod s; errorMessage := v;
     enrollmentId := enrollmentId s; promoCode := promoCode s;
     promoValidating := promoValidating s; promoError := promoError s;
     promoDiscount := promoDiscount s; finalPrice := finalPrice s |}.

Definition setEnrollmentId (v : option JsString) (s : State) : State :=
  {| step := step s; formData := formData s; coursePrice := coursePrice s;
     paymentMethod := paymentMethod s; errorMessage := errorMessage s;
     enrollmentId := v; promoCode := promoCode s;
     promoValidating := promoValidating s; promoError := promoError s;
     promoDiscount := promoDiscount s; finalPrice := finalPrice s |}.

Definition setPromoCode (v : JsString) (s : State) : State :=
  {| step := step s; formData := formData s; coursePrice := coursePrice s;
     paymentMethod := paymentMethod s; errorMessage := errorMessage s;
     enrollmentId := enrollmentId s; promoCode := v;
     promoValidating := promoValidating s; promoError := promoError s;
     promoDiscount := promoDiscount s; finalPrice := finalPrice s |}.

Definition setPromoValidating (v : bool) (s : State) : State :=
  {| step := step s; formData := formData s; coursePrice := coursePrice s;
     paymentMethod := paymentMethod s; errorMessage := errorMessage s;
     enrollmentId := enrollmentId s; promoCode := promoCode s;
     promoValidating := v; promoError := promoError s;
     promoDiscount := promoDiscount s; finalPrice := finalPrice s |}.

Definition setPromoError (v : option JsString) (s : State) : State :=
  {| step := step s; formData := formData s; coursePrice := coursePrice s;
     paymentMethod := paymentMethod s; errorMessage := errorMessage s;
     enrollmentId := enrollmentId s; promoCode := promoCode s;
     promoValidating := promoValidating s; promoError := v;
     promoDiscount := promoDiscount s; finalPrice := finalPrice s |}.

Definition setPromoDiscount (v : option PromoDiscount) (s : State) : State :=
  {| step := step s; formData := formData s; coursePrice := coursePrice s;
     paymentMethod := paymentMethod s; errorMessage := errorMessage s;
     enrollmentId := enrollmentId s; promoCode := promoCode s;
     promoValidating := promoValidating s; promoError := promoError s;
     promoDiscount := v; finalPrice := finalPrice s |}.

Definition setFinalPrice (v : Z) (s : State) : State :=
  {| step := step s; formData := formData s; coursePrice := coursePrice s;
     paymentMethod := paymentMethod s; errorMessage := errorMessage s;
     enrollmentId := enrollmentId s; promoCode := promoCode s;
     promoValidating := promoValidating s; promoError := promoError s;
     promoDiscount := promoDiscount s; finalPrice := v |}.

(** The defaults of the form, derived from the profile of the render. *)
Definition profileNameSegments (p : option Profile) : option (list JsString) :=
  match p with
  | Some pr => match name pr with
               | Some n => Some (split_space n)
               | None => None
               end
  | None => None
  end.

Definition defaultFormData (p : option Profile) : FormData :=
  {| firstName := orEmpty (match profileNameSegments p with
                           | Some segs => segs !! 0%nat
                           | None => None
                           end);
     lastName := orEmpty (match profileNameSegments p with
                          | Some segs => segs !! 1%nat
                          | None => None
                          end);
     email := orEmpty (match p with
                       | Some pr => email_of pr
                       | None => None
                       end);
     phoneNumber := [];
     acceptTerms := false |}.

Definition initialState (p : Props) : State :=
  {| step := details;
     formData := defaultFormData (profile p);
     coursePrice := 0;
     paymentMethod := eversend;
     errorMessage := None;
     enrollmentId := None;
     promoCode := [];
     promoValidating := false;
     promoError := None;
     promoDiscount := None;
     finalPrice := 0 |}.

(** ** [JSON.stringify] on the record written to the session storage *)

Definition hexDigit (n : N) : N :=
  (if n <? 10 then 48 + n else 87 + n)%N.

(** The six code units of a [\uXXXX] escape. *)
Definition unicodeEscape (c : N) : JsString :=
  [92; 117; hexDigit ((c / 4096) mod 16); hexDigit ((c / 256) mod 16);
   hexDigit ((c / 16) mod 16); hexDigit (c mod 16)]%N.

Definition isLeadingSurrogate (c : N) : bool :=
  ((55296 <=? c) && (c <=? 56319))%N.

Definition isTrailingSurrogate (c : N) : bool :=
  ((56320 <=? c) && (c <=? 57343))%N.

(** The body of ECMAScript's [QuoteJSONString]: the short escapes, a
    [\uXXXX] escape for control characters and lone surrogates, everything
    else as it is. *)
Fixpoint quoteChars (s : JsString) : JsString :=
  match s with
  | [] => []
  | c :: s' =>
      if (c =? 8)%N then [92; 98]%N ++ quoteChars s'
      else if (c =? 9)%N then [92; 116]%N ++ quoteChars s'
      else if (c =? 10)%N then [92; 110]%N ++ quoteChars s'
      else if (c =? 12)%N then [92; 102]%N ++ quoteChars s'
      else if (c =? 13)%N then [92; 114]%N ++ quoteChars s'
      else if (c =? 34)%N then [92; 34]%N ++ quoteChars s'
      else if (c =? 92)%N then [92; 92]%N ++ quoteChars s'
      else if (c <? 32)%N then unicodeEscape c ++ quoteChars s'
      else if isLeadingSurrogate c then
        match s' with
        | d :: s'' =>
            if isTrailingSurrogate d then c :: d :: quoteChars s''
            else unicodeEscape c ++ quoteChars s'
        | [] => unicodeEscape c
        end
      else if isTrailingSurrogate c then unicodeEscape c ++ quoteChars s'
      else c :: quoteChars s'
  end.

Definition quoteJSONString (s : JsString) : JsString :=
  [34%N] ++ quoteChars s ++ [34%N].

(** The members of an object literal whose values are strings or
    [undefined]; [JSON.stringify] leaves the undefined ones out. *)
Fixpoint stringifyMembers (members : list (JsString * option JsString))
  : list JsString :=
  match members with
  | [] => []
  | (k, Some v) :: rest =>
      (quoteJSONString k ++ [58%N] ++ quoteJSONString v) :: stringifyMembers rest
  | (_, None) :: rest => stringifyMembers rest
  end.

Fixpoint joinComma (parts : list JsString) : JsString :=
  match parts with
  | [] => []
  | [p] => p
  | p :: rest => p ++ [44%N] ++ joinComma rest
  end.

Definition JSON_stringify (members : list (JsString * option JsString))
  : JsString :=
  [123%N] ++ joinComma (stringifyMembers members) ++ [125%N].

Definition paymentMethodName (m : PaymentMethod) : JsString :=
  match m with
  | eversend => js "eversend"
  | flutterwave => js "flutterwave"
  end.

(** ** Collaborators and their answers *)

(** A value caught by a [catch] clause. *)
Inductive Thrown :=
| ThrownError (message : JsString)
| ThrownOther.

Record PostgrestError := { code : JsString }.

Record PriceRow := { course_price : option Z }.

(** What the query builder of the storage client resolves to. *)
Record PriceReply := {
  data : option PriceRow;
  fetchError : option PostgrestError
}.

Inductive PriceOutcome :=
| PriceThrows (t : Thrown)
| PriceReturns (r : PriceReply).

(** The result of [validatePromoCode]. *)
Record PromoResult := {
  valid : bool;
  final_price : option Z;
  discount_percentage : option Z;
  discount_amount : option Z;
  promo_error : option JsString
}.

Inductive PromoOutcome :=
| PromoThrows (t : Thrown)
| PromoReturns (r : PromoResult).

Inductive ProbeOutcome :=
| ProbeThrows (t : Thrown)
| ProbeReturns (testError : option PostgrestError).

(** The result of [initiateEnrollment]. *)
Record EnrollmentResult := {
  r_success : bool;
  r_enrollmentId : option JsString;
  r_paymentUrl : option JsString;
  r_error : option JsString
}.

Inductive InitiateOutcome :=
| InitiateThrows (t : Thrown)
| InitiateReturns (r : EnrollmentResult).

(** What the component does to the outside, in the order it does it. *)
Inductive Effect :=
| QueryCoursePrice (courseId : JsString)
| ValidatePromoCode (promo courseId : JsString) (basePrice : Z)
| ProbeEnrollments
| InitiateEnrollment (userId courseId : JsString) (amount : Z)
    (contactEmail userName phone : JsString) (useEversend : bool)
| SetItem (key value : JsString)
| Navigate (url : JsString)
| SetTimeout (ms : Z)
| OnEnrollmentComplete
| OnClose
| ConsoleError (label : JsString).

(** The browser: the session storage, whether a write to it throws, and
    the address the window was sent to. *)
Record Browser := {
  sessionStorage : gmap (list N) (list N);
  setItemThrows : option Thrown;
  location_href : option JsString
}.

(** A render: the props and the state every handler created in it closes
    over. *)
Record Render := {
  r_props : Props;
  r_state : State
}.

(** A handler suspended at an [await], with the render it closed over. *)
Inductive Pending :=
| AwaitPrice
| AwaitPromo (cl : Render)
| AwaitProbe (cl : Render) (u : User)
| AwaitInitiate (cl : Render) (u : User)
| AwaitTimer.

Record World := {
  props : Props;
  st : State;
  pending : list Pending;
  browser : Browser;
  log : list Effect
}.

Definition render (w : World) : Render :=
  {| r_props := props w; r_state := st w |}.

Definition withState (f : State -> State) (w : World) : World :=
  {| props := props w; st := f (st w); pending := pending w;
     browser := browser w; log := log w |}.

Definition emit (e : Effect) (w : World) : World :=
  {| props := props w; st := st w; pending := pending w;
     browser := browser w; log := log w ++ [e] |}.

Definition suspend (p : Pending) (w : World) : World :=
  {| props := props w; st := st w; pending := pending w ++ [p];
     browser := browser w; log := log w |}.

Definition withBrowser (f : Browser -> Browser) (w : World) : World :=
  {| props := props w; st := st w; pending := pending w;
     browser := f (browser w); log := log w |}.

Definition withProps (p : Props) (w : World) : World :=
  {| props := p; st := st w; pending := pending w;
     browser := browser w; log := log w |}.

Definition resume (n : nat) (w : World) : World :=
  {| props := props w; st := st w; pending := delete n (pending w);
     browser := browser w; log := log w |}.

(** ** The handlers *)

Section Component.

(** [String.prototype.toUpperCase] is a built-in of the engine; the
    component only stores what it returns. *)
Variable toUpperCase : JsString -> JsString.

(** The body of the [useEffect] on [isOpen] and [course.id], up to the
    [await] of [fetchCoursePrice]. *)
Definition fetchEffect (w : World) : World :=
  if negb (isOpen (props w)) || negb (truthy (course_id (course (props w))))
  then w
  else suspend AwaitPrice
         (emit (QueryCoursePrice (course_id (course (props w)))) w).

(** [fetchCoursePrice] after its [await]. *)
Definition fetchCoursePrice_resume (o : PriceOutcome) (w : World) : World :=
  match o with
  | PriceReturns r =>
      match fetchError r, data r with
      | None, Some row =>
          withState (fun s => setFinalPrice (orZero (course_price row))
                                (setCoursePrice (orZero (course_price row)) s)) w
      | _, _ => w
      end
  | PriceThrows _ =>
      withState (fun s => setFinalPrice 0 (setCoursePrice 0 s))
        (emit (ConsoleError (js "Error fetching course price:")) w)
  end.

(** [handleValidatePromo] up to its [await]. *)
Definition handleValidatePromo (cl : Render) (w : World) : World :=
  if negb (truthy (trim (promoCode (r_state cl)))) then
    withState (setPromoError (Some (js "Enter a promo code"))) w
  else
    suspend (AwaitPromo cl)
      (emit (ValidatePromoCode (promoCode (r_state cl))
               (course_id (course (r_props cl))) (coursePrice (r_state cl)))
         (withState (fun s => setPromoError None (setPromoValidating true s)) w)).

(** [handleValidatePromo] after its [await]: the result is applied as it
    comes; a rejected call leaves the handler at the [await]. *)
Definition handleValidatePromo_resume (cl : Render) (o : PromoOutcome)
  (w : World) : World :=
  match o with
  | PromoThrows _ => w
  | PromoReturns r =>
      withState (setPromoValidating false)
        (match valid r, final_price r with
         | true, Some fp =>
             withState (fun s =>
               setPromoError None
                 (setFinalPrice fp
                    (setPromoDiscount
                       (Some {| percentage := discount_percentage r;
                                amount := discount_amount r |}) s))) w
         | _, _ =>
             withState (fun s =>
               setFinalPrice (coursePrice (r_state cl))
                 (setPromoDiscount None
                    (setPromoError
                       (Some (orString (promo_error r)
                                (js "Invalid promo code"))) s))) w
         end)
  end.

(** The [onChange] of the promo code input. *)
Definition handlePromoChange (cl : Render) (value : JsString) (w : World)
  : World :=
  withState (fun s =>
    setFinalPrice (coursePrice (r_state cl))
      (setPromoDiscount None
         (setPromoError None (setPromoCode (toUpperCase value) s)))) w.

(** The named inputs of the details form. *)
Inductive InputName :=
| In_firstName | In_lastName | In_email | In_phoneNumber | In_acceptTerms.

Definition isCheckbox (n : InputName) : bool :=
  match n with
  | In_acceptTerms => true
  | _ => false
  end.

(** [{ ...prev, [name]: type === 'checkbox' ? checked : value }] *)
Definition updateField (n : InputName) (value : JsString) (checked : bool)
  (prev : FormData) : FormData :=
  match n with
  | In_firstName =>
      {| firstName := value; lastName := lastName prev; email := email prev;
         phoneNumber := phoneNumber prev; acceptTerms := acceptTerms prev |}
  | In_lastName =>
      {| firstName := firstName prev; lastName := value; email := email prev;
         phoneNumber := phoneNumber prev; acceptTerms := acceptTerms prev |}
  | In_email =>
      {| firstName := firstName prev; lastName := lastName prev; email := value;
         phoneNumber := phoneNumber prev; acceptTerms := acceptTerms prev |}
  | In_phoneNumber =>
      {| firstName := firstName prev; lastName := lastName prev;
         email := email prev; phoneNumber := value;
         acceptTerms := acceptTerms prev |}
  | In_acceptTerms =>
      {| firstName := firstName prev; lastName := lastName prev;
         email := email prev; phoneNumber := phoneNumber prev;
         acceptTerms := checked |}
  end.

Definition handleInputChange (n : InputName) (value : JsString)
  (checked : bool) (w : World) : World :=
  withState (fun s => setFormData (updateField n value checked (formData s)) s) w.

(** [validateForm]: reads the form and the price of its render, writes
    only the error message. *)
Definition validateForm (cl : Render) (s : State) : bool * State :=
  let f := formData (r_state cl) in
  if negb (truthy (trim (firstName f))) then
    (false, setErrorMessage (Some (js "First name is required")) s)
  else if negb (truthy (trim (email f))) then
    (false, setErrorMessage (Some (js "Email is required")) s)
  else if (0 <? coursePrice (r_state cl))
          && negb (truthy (trim (phoneNumber f))) then
    (false, setErrorMessage
              (Some (js "Phone number is required for paid courses")) s)
  else if negb (acceptTerms f) then
    (false, setErrorMessage
              (Some (js "You must accept the terms and conditions")) s)
  else (true, s).

(** [handlePayment] up to the [await] of the storage probe. *)
Definition handlePayment (cl : Render) (w : World) : World :=
  match user (r_props cl) with
  | None => withState (setErrorMessage (Some (js "User not authenticated"))) w
  | Some u =>
      suspend (AwaitProbe cl u)
        (emit ProbeEnrollments (withState (setErrorMessage None) w))
  end.

Definition setupRequiredMessage : JsString :=
  js "Database setup required. Please run the 3 SQL migrations from the database folder first.".

(** [userName]: first and last name joined by a space, trimmed. *)
Definition userName (f : FormData) : JsString :=
  trim (firstName f ++ [32%N] ++ lastName f).

(** [handlePayment] from [setStep('processing')] to the [await] of
    [initiateEnrollment]. *)
Definition startProcessing (cl : Render) (u : User) (w : World) : World :=
  suspend (AwaitInitiate cl u)
    (emit (InitiateEnrollment (user_id u) (course_id (course (r_props cl)))
             (finalPrice (r_state cl)) (email (formData (r_state cl)))
             (userName (formData (r_state cl)))
             (phoneNumber (formData (r_state cl)))
             (bool_decide (paymentMethod (r_state cl) = eversend)))
       (withState (setStep processing) w)).

(** [handlePayment] after the probe. *)
Definition handlePayment_probed (cl : Render) (u : User) (o : ProbeOutcome)
  (w : World) : World :=
  match o with
  | ProbeReturns (Some e) =>
      if bool_decide (code e = js "PGRST116") then
        withState (fun s => setStep error
                              (setErrorMessage (Some setupRequiredMessage) s)) w
      else startProcessing cl u w
  | ProbeReturns None => startProcessing cl u w
  | ProbeThrows _ =>
      startProcessing cl u (emit (ConsoleError (js "Database check failed:")) w)
  end.

(** The [catch] clause around payment initiation. *)
Definition paymentCatch (t : Thrown) (w : World) : World :=
  withState (fun s =>
    setStep error
      (setErrorMessage
         (Some (match t with
                | ThrownError m => m
                | ThrownOther => js "Payment failed"
                end)) s)) w.

(** The record kept across the redirect. *)
Definition pendingEnrollmentRecord (cl : Render) (u : User)
  (r : EnrollmentResult) : list (JsString * option JsString) :=
  [ (js "enrollmentId", r_enrollmentId r);
    (js "courseId", Some (course_id (course (r_props cl))));
    (js "userId", Some (user_id u));
    (js "paymentMethod", Some (paymentMethodName (paymentMethod (r_state cl)))) ].

(** [sessionStorage.setItem] followed by the assignment to
    [window.location.href]; a write that throws goes to the [catch]. *)
Definition redirectToProvider (cl : Render) (u : User) (r : EnrollmentResult)
  (url : JsString) (w : World) : World :=
  match setItemThrows (browser w) with
  | Some t => paymentCatch t w
  | None =>
      let value := JSON_stringify (pendingEnrollmentRecord cl u r) in
      let w1 :=
        emit (SetItem (js "pendingEnrollment") value)
          (withBrowser (fun b =>
             {| sessionStorage := <[js "pendingEnrollment" := value]> (sessionStorage b);
                setItemThrows := setItemThrows b;
                location_href := location_href b |}) w) in
      emit (Navigate url)
        (withBrowser (fun b =>
           {| sessionStorage := sessionStorage b;
              setItemThrows := setItemThrows b;
              location_href := Some url |}) w1)
  end.

(** [handlePayment] after [initiateEnrollment]. *)
Definition handlePayment_initiated (cl : Render) (u : User)
  (o : InitiateOutcome) (w : World) : World :=
  match o with
  | InitiateThrows t => paymentCatch t w
  | InitiateReturns r =>
      if negb (r_success r) then
        withState (fun s =>
          setStep error
            (setErrorMessage
               (Some (orString (r_error r) (js "Payment initialization failed")))
               s)) w
      else
        let w1 := withState (setEnrollmentId (orNull (r_enrollmentId r))) w in
        match orNull (r_paymentUrl r) with
        | None =>
            suspend AwaitTimer
              (emit (SetTimeout 2000) (withState (setStep success) w1))
        | Some url => redirectToProvider cl u r url w1
        end
  end.

(** The callback of the [setTimeout] after a success. *)
Definition successTimer (w : World) : World :=
  emit OnClose (emit OnEnrollmentComplete w).

Definition handleProceedToPayment (cl : Render) (w : World) : World :=
  let w1 := withState (setErrorMessage None) w in
  let '(ok, s2) := validateForm cl (st w1) in
  let w2 := withState (fun _ => s2) w1 in
  if negb ok then w2
  else if coursePrice (r_state cl) =? 0 then handlePayment cl w2
  else withState (setStep payment) w2.

Definition handleClose (cl : Render) (w : World) : World :=
  if bool_decide (step (r_state cl) <> processing) then
    emit OnClose
      (withState (fun s =>
         setEnrollmentId None
           (setErrorMessage None
              (setFormData (defaultFormData (profile (r_props cl)))
                 (setStep details s)))) w)
  else w.

(** ** The machine *)

Inductive Response :=
| GotPrice (o : PriceOutcome)
| GotPromo (o : PromoOutcome)
| GotProbe (o : ProbeOutcome)
| GotInitiate (o : InitiateOutcome)
| TimerFired.

Inductive Event :=
| Rerender (p : Props)
| Change (n : InputName) (value : JsString) (checked : bool)
| ChangePromo (value : JsString)
| ClickApply
| Submit
| SelectMethod (m : PaymentMethod)
| ClickBack
| ClickPay
| ClickTryAgain
| ClickClose
| Deliver (n : nat) (r : Response).

(** Which controls the JSX renders, and enabled, in a world. *)
Definition enabled (w : World) (e : Event) : bool :=
  match e with
  | Rerender _ => true
  | Deliver _ _ => true
  | Change n _ _ =>
      isOpen (props w) && bool_decide (step (st w) = details)
      && match n with
         | In_phoneNumber => 0 <? coursePrice (st w)
         | _ => true
         end
  | ChangePromo _ =>
      isOpen (props w) && bool_decide (step (st w) = details)
      && (0 <? coursePrice (st w))
  | ClickApply =>
      isOpen (props w) && bool_decide (step (st w) = details)
      && (0 <? coursePrice (st w))
      && negb (promoValidating (st w) || negb (truthy (trim (promoCode (st w)))))
  | Submit => isOpen (props w) && bool_decide (step (st w) = details)
  | SelectMethod _ =>
      isOpen (props w) && bool_decide (step (st w) = payment)
      && (0 <? coursePrice (st w))
  | ClickBack => isOpen (props w) && bool_decide (step (st w) = payment)
  | ClickPay =>
      isOpen (props w) && bool_decide (step (st w) = payment)
      && negb (isLoading (props w))
  | ClickTryAgain => isOpen (props w) && bool_decide (step (st w) = error)
  | ClickClose => isOpen (props w) && bool_decide (step (st w) <> processing)
  end.

(** A suspended handler continues with the answer it waited for. *)
Definition deliver (n : nat) (r : Response) (w : World) : World :=
  match pending w !! n, r with
  | Some AwaitPrice, GotPrice o => fetchCoursePrice_resume o (resume n w)
  | Some (AwaitPromo cl), GotPromo o =>
      handleValidatePromo_resume cl o (resume n w)
  | Some (AwaitProbe cl u), GotProbe o =>
      handlePayment_probed cl u o (resume n w)
  | Some (AwaitInitiate cl u), GotInitiate o =>
      handlePayment_initiated cl u o (resume n w)
  | Some AwaitTimer, TimerFired => successTimer (resume n w)
  | _, _ => w
  end.

(** A new render: the effect runs again when one of its dependencies
    changed. *)
Definition rerender (p : Props) (w : World) : World :=
  if bool_decide (isOpen p = isOpen (props w))
     && bool_decide (course_id (course p) = course_id (course (props w)))
  then withProps p w
  else fetchEffect (withProps p w).

Definition handle (e : Event) (w : World) : World :=
  match e with
  | Rerender p => rerender p w
  | Change n value checked => handleInputChange n value checked w
  | ChangePromo value => handlePromoChange (render w) value w
  | ClickApply => handleValidatePromo (render w) w
  | Submit => handleProceedToPayment (render w) w
  | SelectMethod m => withState (setPaymentMethod m) w
  | ClickBack => withState (setStep details) w
  | ClickPay => handlePayment (render w) w
  | ClickTryAgain => withState (setStep details) w
  | ClickClose => handleClose (render w) w
  | Deliver n r => deliver n r w
  end.

Definition dispatch (w : World) (e : Event) : World :=
  if enabled w e then handle e w else w.

Definition run (w : World) (es : list Event) : World :=
  fold_left dispatch es w.

Definition emptyBrowser : Browser :=
  {| sessionStorage := ∅; setItemThrows := None; location_href := None |}.

(** The first render and its effect. *)
Definition mount (p : Props) (b : Browser) : World :=
  fetchEffect {| props := p; st := initialState p; pending := [];
                 browser := b; log := [] |}.

(** The error message the JSX shows: inline in the details form and on
    the error screen, nowhere else. *)
Definition shownError (w : World) : option JsString :=
  if isOpen (props w) then
    match step (st w) with
    | details | error => orNull (errorMessage (st w))
    | _ => None
    end
  else None.

End Component.

(** An upper-casing of the ASCII letters, to run the machine on ASCII
    input. *)
Definition asciiUpperCase (s : JsString) : JsString :=
  map (fun c => if (97 <=? c) && (c <=? 122) then c - 32 else c)%N s.

(** A paid course, a signed-in user with a profile. *)
Definition course1 : Course :=
  {| course_id := js "c1"; title := js "Rocq"; thumbnail_url := js "t.png";
     is_premium := true; creator := js "ann" |}.

Definition user1 : User := {| user_id := js "u1" |}.

Definition profile1 : Profile :=
  {| name := Some (js "Ada Lovelace"); email_of := Some (js "ada@x.org") |}.

Definition props1 : Props :=
  {| course := course1; isOpen := true; user := Some user1;
     profile := Some profile1; isLoading := false |}.

Definition priceIs (p : Z) : Response :=
  GotPrice (PriceReturns {| data := Some {| course_price := Some p |};
                            fetchError := None |}).

(** The same course offered to a visitor who is not signed in. *)
Definition propsAnonymous : Props :=
  {| course := course1; isOpen := true; user := None;
     profile := None; isLoading := false |}.

Definition withIsOpen (b : bool) (p : Props) : Props :=
  {| course := course p; isOpen := b; user := user p;
     profile := profile p; isLoading := isLoading p |}.

(** The worlds a run goes through, the first one included. *)
Fixpoint trajectory (up : JsString -> JsString) (w : World) (es : list Event)
  : list World :=
  match es with
  | [] => [w]
  | e :: es' => w :: trajectory up (dispatch up w e) es'
  end.

(** The probe reports that the enrollment table is missing. *)
Definition reportsNotFound (o : ProbeOutcome) : bool :=
  match o with
  | ProbeReturns (Some e) => bool_decide (code e = js "PGRST116")
  | _ => false
  end.

Definition notFound : ProbeOutcome :=
  ProbeReturns (Some {| code := js "PGRST116" |}).

(** The details form filled in for a paid course. *)
Definition fillForm : list Event :=
  [Change In_phoneNumber (js "+256700") false; Change In_acceptTerms [] true].

(** A visitor's first run through a paid course up to the payment screen. *)
Definition toPaymentScreen : list Event :=
  [Deliver 0 (priceIs 50000)] ++ fillForm ++ [Submit].

(** ** Form validation as the specification words it *)

Inductive FormError :=
| FirstNameRequired | EmailRequired | PhoneRequired | TermsRequired.

Definition messageOf (e : FormError) : JsString :=
  match e with
  | FirstNameRequired => js "First name is required"
  | EmailRequired => js "Email is required"
  | PhoneRequired => js "Phone number is required for paid courses"
  | TermsRequired => js "You must accept the terms and conditions"
  end.

(** What a validation outcome does to the state. *)
Definition outcome (r : option FormError) (s : State) : bool * State :=
  match r with
  | None => (true, s)
  | Some e => (false, setErrorMessage (Some (messageOf e)) s)
  end.

(** An ordered list of independent checks; the first one that fails gives
    the error. *)
Definition firstFailure (rules : list ((FormData -> bool) * FormError))
  (f : FormData) : option FormError :=
  snd <$> find (fun rule => negb (fst rule f)) rules.

(** The four rules with "non-empty" read as the specification writes it:
    the field holds at least one character. *)
Definition rules_spec (basePrice : Z) : list ((FormData -> bool) * FormError) :=
  [ (fun f => truthy (firstName f), FirstNameRequired);
    (fun f => truthy (email f), EmailRequired);
    (fun f => negb (0 <? basePrice) || truthy (phoneNumber f), PhoneRequired);
    (fun f => acceptTerms f, TermsRequired) ].

(** A field is blank when nothing is left of it after trimming. *)
Definition blank (s : JsString) : bool := negb (truthy (trim s)).

(** The four rules with "non-empty" read as "not blank". *)
Definition rules_trimmed (basePrice : Z)
  : list ((FormData -> bool) * FormError) :=
  [ (fun f => negb (blank (firstName f)), FirstNameRequired);
    (fun f => negb (blank (email f)), EmailRequired);
    (fun f => negb (0 <? basePrice) || negb (blank (phoneNumber f)),
       PhoneRequired);
    (fun f => acceptTerms f, TermsRequired) ].

(** A render of the details form with the given fields and base price. *)
Definition renderWith (f : FormData) (price : Z) : Render :=
  {| r_props := props1;
     r_state := setFinalPrice price
                  (setCoursePrice price (setFormData f (initialState props1))) |}.

(** A form whose first name is a single space. *)
Definition spaceNamed : FormData :=
  {| firstName := js " "; lastName := []; email := js "ada@x.org";
     phoneNumber := []; acceptTerms := true |}.

(** ** The pricing invariant and what it needs from the collaborators *)

Definition pricingInvariant (s : State) : Prop :=
  finalPrice s <= coursePrice s
  /\ (promoDiscount s = None -> finalPrice s = coursePrice s).

Definition isAwaitPromo (p : Pending) : bool :=
  match p with
  | AwaitPromo _ => true
  | _ => false
  end.

(** A valid validation result never prices the course above the base price
    it was asked about. *)
Definition promoReduces (w : World) (e : Event) : Prop :=
  match e with
  | Deliver n (GotPromo (PromoReturns r)) =>
      match pending w !! n with
      | Some (AwaitPromo cl) =>
          forall fp, valid r = true -> final_price r = Some fp ->
                     fp <= coursePrice (r_state cl)
      | _ => True
      end
  | _ => True
  end.

(** No answer of the catalog arrives while a validation is in flight. *)
Definition priceSettled (w : World) (e : Event) : Prop :=
  match e with
  | Deliver n (GotPrice _) => existsb isAwaitPromo (pending w) = false
  | _ => True
  end.

Fixpoint admissible (up : JsString -> JsString) (w : World) (es : list Event)
  : Prop :=
  match es with
  | [] => True
  | e :: es' =>
      promoReduces w e /\ priceSettled w e /\ admissible up (dispatch up w e) es'
  end.

(** The promo code [SAVE20] accepted at 20 percent off 50000. *)
Definition save20 : PromoResult :=
  {| valid := true; final_price := Some 40000;
     discount_percentage := Some 20; discount_amount := None;
     promo_error := None |}.

(** A validation result that prices the course above its base price. *)
Definition surcharge : PromoResult :=
  {| valid := true; final_price := Some 60000;
     discount_percentage := None; discount_amount := None;
     promo_error := None |}.

Definition rejected : PromoResult :=
  {| valid := false; final_price := None;
     discount_percentage := None; discount_amount := None;
     promo_error := Some (js "Promo code not found") |}.


(** An answer of the catalog that carries an error instead of a row. *)
Definition priceFails : Response :=
  GotPrice (PriceReturns {| data := None;
                            fetchError := Some {| code := js "PGRST301" |} |}).

(** A redirect outcome of [initiateEnrollment]. *)
Definition redirectE1 : EnrollmentResult :=
  {| r_success := true; r_enrollmentId := Some (js "E1");
     r_paymentUrl := Some (js "https://pay/x"); r_error := None |}.

(** The promo and pricing cells of the state. *)
Definition promoAndPricing (s : State)
  : JsString * option PromoDiscount * option JsString * Z * Z :=
  (promoCode s, promoDiscount s, promoError s, coursePrice s, finalPrice s).

(** A first session that learns the price, is closed, and a second one
    whose price query comes back with an error. *)
Definition reopenedWithFailingCatalog : list Event :=
  [Deliver 0 (priceIs 50000); ClickClose;
   Rerender (withIsOpen false props1); Rerender props1;
   Deliver 0 priceFails].

(** A visitor who is not signed in fills the form of a paid course and
    presses the pay button. *)
Definition anonymousPays : list Event :=
  [Deliver 0 (priceIs 50000);
   Change In_firstName (js "Ada") false;
   Change In_email (js "ada@x.org") false]
  ++ fillForm ++ [Submit; ClickPay].

(** Every validation in flight was asked about the current base price. *)
Definition closuresAgree (w : World) : Prop :=
  forall cl, AwaitPromo cl ∈ pending w ->
             coursePrice (r_state cl) = coursePrice (st w).

Definition pricingSound (w : World) : Prop :=
  pricingInvariant (st w) /\ closuresAgree w.

(** A transition that leaves the prices and the discount alone and starts
    no validation. *)
Definition priceFrame (w w' : World) : Prop :=
  coursePrice (st w') = coursePrice (st w)
  /\ finalPrice (st w') = finalPrice (st w)
  /\ promoDiscount (st w') = promoDiscount (st w)
  /\ forall cl, AwaitPromo cl ∈ pending w' -> AwaitPromo cl ∈ pending w.

(** The user edits the code while the validation of [A] is in flight. *)
Definition staleEdit : list Event :=
  [Deliver 0 (priceIs 50000); ChangePromo (js "a"); ClickApply;
   ChangePromo (js "b")].

(** A validation answered with a price above the base price. *)
Definition surcharged : list Event :=
  [Deliver 0 (priceIs 50000); ChangePromo (js "a"); ClickApply;
   Deliver 0 (GotPromo (PromoReturns surcharge))].

(** The end-to-end example of the specification up to the payment
    screen. *)
Definition save20Applied : list Event :=
  [Deliver 0 (priceIs 50000); ChangePromo (js "save20"); ClickApply;
   Deliver 0 (GotPromo (PromoReturns save20))]
  ++ fillForm ++ [Submit].

(** The catalog answers a second time, with a lower price, while the
    validation of the first session is still in flight. *)
Definition repricedInFlight : list Event :=
  [Deliver 0 (priceIs 50000); ChangePromo (js "save20"); ClickApply;
   ClickClose; Rerender (withIsOpen false props1); Rerender props1;
   Deliver 1 (priceIs 30000); Deliver 0 (GotPromo (PromoReturns save20))].

(** ** The order of the write and the navigation in the log *)

Definition isNavigate (e : Effect) : bool :=
  match e with
  | Navigate _ => true
  | _ => false
  end.

Definition isPendingWrite (e : option Effect) : bool :=
  match e with
  | Some (SetItem key _) => bool_decide (key = js "pendingEnrollment")
  | _ => false
  end.

(** Every navigation in the log comes right after a write of the pending
    enrollment; [prev] is the effect before the first one of [l]. *)
Fixpoint guardedFrom (prev : option Effect) (l : list Effect) : bool :=
  match l with
  | [] => true
  | e :: l' =>
      (if isNavigate e then isPendingWrite prev else true)
      && guardedFrom (Some e) l'
  end.

Definition lastOr (prev : option Effect) (l : list Effect) : option Effect :=
  match last l with
  | Some e => Some e
  | None => prev
  end.

(** What one transition may add to the log: effects other than a
    navigation, or the write followed by the navigation. *)
Definition safeSuffix (s : list Effect) : Prop :=
  forallb (fun e => negb (isNavigate e)) s = true
  \/ exists value url, s = [SetItem (js "pendingEnrollment") value; Navigate url].

(** The log of a transition is the old log followed by a safe suffix. *)
Ltac log_suffix :=
  eexists; split;
  [ cbn [log emit withState withBrowser withProps suspend resume];
    rewrite <- ?app_assoc; try reflexivity; symmetry; apply app_nil_r
  | first [ left; reflexivity | right; by do 2 eexists ] ].

(** Membership of a validation among the suspended handlers. *)
Ltac promo_mem :=
  repeat match goal with
    | H : _ ∈ _ ++ _ |- _ => apply elem_of_app in H; destruct H as [H | H]
    | H : _ ∈ [_] |- _ => apply list_elem_of_singleton in H; try discriminate H
    | H : _ ∈ [] |- _ => by apply not_elem_of_nil in H
    | H : _ ∈ delete _ _ |- _ =>
        apply (sublist_subseteq _ _ (sublist_delete _ _)) in H
    end.

(** ** Classifying and counting, for the properties of whole runs *)

(** A string holds no whitespace at all. *)
Definition solid (s : JsString) : bool :=
  forallb (fun c => negb (isWhiteSpace c)) s.

(** A string holds no space. *)
Definition spaceFree (s : JsString) : bool :=
  forallb (fun c => negb (c =? 32)%N) s.

(** How many elements of a list pass a test. *)
Fixpoint countIf {A : Type} (f : A -> bool) (l : list A) : nat :=
  match l with
  | [] => 0%nat
  | x :: l' => ((if f x then 1 else 0) + countIf f l')%nat
  end.

Definition isAwaitProbe (p : Pending) : bool :=
  match p with
  | AwaitProbe _ _ => true
  | _ => false
  end.

Definition isAwaitInitiate (p : Pending) : bool :=
  match p with
  | AwaitInitiate _ _ => true
  | _ => false
  end.

Definition isAwaitTimer (p : Pending) : bool :=
  match p with
  | AwaitTimer => true
  | _ => false
  end.

Definition isProbe (e : Effect) : bool :=
  match e with
  | ProbeEnrollments => true
  | _ => false
  end.

Definition isInitiate (e : Effect) : bool :=
  match e with
  | InitiateEnrollment _ _ _ _ _ _ _ => true
  | _ => false
  end.

Definition isValidate (e : Effect) : bool :=
  match e with
  | ValidatePromoCode _ _ _ => true
  | _ => false
  end.

Definition isQuery (e : Effect) : bool :=
  match e with
  | QueryCoursePrice _ => true
  | _ => false
  end.

Definition isRerender (e : Event) : bool :=
  match e with
  | Rerender _ => true
  | _ => false
  end.

(** A query for the price of a course that has an id. *)
Definition okQuery (e : Effect) : bool :=
  match e with
  | QueryCoursePrice courseId => truthy courseId
  | _ => true
  end.

Definition isSetTimeout (e : Effect) : bool :=
  match e with
  | SetTimeout _ => true
  | _ => false
  end.

Definition isEnrollmentComplete (e : Effect) : bool :=
  match e with
  | OnEnrollmentComplete => true
  | _ => false
  end.

(** The checks of [validateForm] that do not depend on the price. *)
Definition validBasics (f : FormData) : bool :=
  negb (blank (firstName f)) && negb (blank (email f)) && acceptTerms f.

(** A call of the promo collaborator with a code that is not blank, for a
    course that is not free. *)
Definition okPromoCall (e : Effect) : bool :=
  match e with
  | ValidatePromoCode promo _ basePrice => negb (blank promo) && (0 <? basePrice)
  | _ => true
  end.

(** A call of [initiateEnrollment] with a contact email and a name that
    are not blank. *)
Definition okInitiateCall (e : Effect) : bool :=
  match e with
  | InitiateEnrollment _ _ _ contactEmail name _ _ =>
      negb (blank contactEmail) && truthy name
  | _ => true
  end.

(** The events that come from the controls of the modal, as opposed to the
    parent's renders and the collaborators' answers. *)
Definition isUserEvent (e : Event) : bool :=
  match e with
  | Rerender _ | Deliver _ _ => false
  | _ => true
  end.

(** What one transition of the machine does to the suspended handlers, to
    the log and to the validation flag. *)
Inductive Transition (w w' : World) : Prop :=
| T_quiet :
    pending w' = pending w -> log w' = log w ->
    promoValidating (st w') = promoValidating (st w) ->
    Transition w w'
| T_close :
    pending w' = pending w -> log w' = log w ++ [OnClose] ->
    promoValidating (st w') = promoValidating (st w) ->
    Transition w w'
| T_query :
    isOpen (props w') = true ->
    course_id (course (props w')) <> [] ->
    pending w' = pending w ++ [AwaitPrice] ->
    log w' = log w ++ [QueryCoursePrice (course_id (course (props w')))] ->
    promoValidating (st w') = promoValidating (st w) ->
    Transition w w'
| T_validate :
    pending w' = pending w ++ [AwaitPromo (render w)] ->
    log w' = log w ++ [ValidatePromoCode (promoCode (st w))
                         (course_id (course (props w))) (coursePrice (st w))] ->
    promoValidating (st w) = false -> promoValidating (st w') = true ->
    blank (promoCode (st w)) = false -> 0 < coursePrice (st w) ->
    Transition w w'
| T_probe (u : User) :
    user (props w) = Some u ->
    step (st w) = payment \/ validBasics (formData (st w)) = true ->
    pending w' = pending w ++ [AwaitProbe (render w) u] ->
    log w' = log w ++ [ProbeEnrollments] ->
    promoValidating (st w') = promoValidating (st w) ->
    Transition w w'
| T_price (n : nat) (s : list Effect) :
    pending w !! n = Some AwaitPrice ->
    pending w' = delete n (pending w) -> log w' = log w ++ s ->
    s = [] \/ s = [ConsoleError (js "Error fetching course price:")] ->
    promoValidating (st w') = promoValidating (st w) ->
    Transition w w'
| T_promo_returned (n : nat) (cl : Render) :
    pending w !! n = Some (AwaitPromo cl) ->
    pending w' = delete n (pending w) -> log w' = log w ->
    promoValidating (st w') = false ->
    Transition w w'
| T_promo_thrown (n : nat) (cl : Render) :
    pending w !! n = Some (AwaitPromo cl) ->
    pending w' = delete n (pending w) -> log w' = log w ->
    st w' = st w ->
    Transition w w'
| T_probe_stop (n : nat) (cl : Render) (u : User) :
    pending w !! n = Some (AwaitProbe cl u) ->
    pending w' = delete n (pending w) -> log w' = log w ->
    promoValidating (st w') = promoValidating (st w) ->
    Transition w w'
| T_probe_go (n : nat) (cl : Render) (u : User) (s : list Effect) :
    pending w !! n = Some (AwaitProbe cl u) ->
    pending w' = delete n (pending w) ++ [AwaitInitiate cl u] ->
    log w' = log w ++ s ++
      [InitiateEnrollment (user_id u) (course_id (course (r_props cl)))
         (finalPrice (r_state cl)) (email (formData (r_state cl)))
         (userName (formData (r_state cl)))
         (phoneNumber (formData (r_state cl)))
         (bool_decide (paymentMethod (r_state cl) = eversend))] ->
    s = [] \/ s = [ConsoleError (js "Database check failed:")] ->
    promoValidating (st w') = promoValidating (st w) ->
    Transition w w'
| T_initiate_failed (n : nat) (cl : Render) (u : User) :
    pending w !! n = Some (AwaitInitiate cl u) ->
    pending w' = delete n (pending w) -> log w' = log w ->
    promoValidating (st w') = promoValidating (st w) ->
    Transition w w'
| T_initiate_completed (n : nat) (cl : Render) (u : User) :
    pending w !! n = Some (AwaitInitiate cl u) ->
    pending w' = delete n (pending w) ++ [AwaitTimer] ->
    log w' = log w ++ [SetTimeout 2000] ->
    promoValidating (st w') = promoValidating (st w) ->
    Transition w w'
| T_initiate_redirect (n : nat) (cl : Render) (u : User)
    (value url : JsString) :
    pending w !! n = Some (AwaitInitiate cl u) ->
    pending w' = delete n (pending w) ->
    log w' = log w ++ [SetItem (js "pendingEnrollment") value; Navigate url] ->
    promoValidating (st w') = promoValidating (st w) ->
    Transition w w'
| T_timer (n : nat) :
    pending w !! n = Some AwaitTimer ->
    pending w' = delete n (pending w) ->
    log w' = log w ++ [OnEnrollmentComplete; OnClose] ->
    promoValidating (st w') = promoValidating (st w) ->
    Transition w w'.

(** The world before the first effect runs. *)
Definition firstRender (p : Props) (b : Browser) : World :=
  {| props := p; st := initialState p; pending := []; browser := b;
     log := [] |}.

(** Rewrites what a transition says about the new world into the goal and
    splits the alternatives of its log. *)
Ltac transition_cases HT :=
  destruct HT;
  repeat match goal with
    | H : _ = [] \/ _ = [_] |- _ => destruct H as [H | H]; subst
    end;
  repeat match goal with
    | H : pending ?w' = _ |- context [pending ?w'] => rewrite H
    | H : log ?w' = _ |- context [log ?w'] => rewrite H
    | H : st ?w' = st _ |- context [st ?w'] => rewrite H
    | H : promoValidating (st ?w') = _ |- context [promoValidating (st ?w')] =>
        rewrite H
    end.

(** At most one validation is in flight, and the flag is up while it is. *)
Definition oneValidation (w : World) : Prop :=
  (countIf isAwaitPromo (pending w) <= 1)%nat
  /\ (countIf isAwaitPromo (pending w) = 1%nat ->
      promoValidating (st w) = true).

(** The validation flag is up although no validation is in flight; [k]
    calls of the promo collaborator were made. *)
Definition applyStuck (k : nat) (w : World) : Prop :=
  promoValidating (st w) = true
  /\ countIf isAwaitPromo (pending w) = 0%nat
  /\ countIf isValidate (log w) = k.

(** The books of the payment path: every call of [initiateEnrollment]
    follows a probe of its own, every timer a call that returned, every
    notification a timer. *)
Definition paymentBooks (w : World) : Prop :=
  (countIf isInitiate (log w) + countIf isAwaitProbe (pending w)
   <= countIf isProbe (log w))%nat
  /\ (countIf isSetTimeout (log w) + countIf isAwaitInitiate (pending w)
      <= countIf isInitiate (log w))%nat
  /\ (countIf isEnrollmentComplete (log w) + countIf isAwaitTimer (pending w)
      = countIf isSetTimeout (log w))%nat.

(** Wherever a form is about to be paid for, its first name and email are
    not blank and the terms are accepted: on the payment screen, in every
    suspended payment, in every call of [initiateEnrollment] made. *)
Definition validForms (w : World) : Prop :=
  (step (st w) = payment -> validBasics (formData (st w)) = true)
  /\ (forall cl u, AwaitProbe cl u ∈ pending w ->
                   validBasics (formData (r_state cl)) = true)
  /\ (forall cl u, AwaitInitiate cl u ∈ pending w ->
                   validBasics (formData (r_state cl)) = true)
  /\ forallb okInitiateCall (log w) = true.

(** The key of the record kept across the redirect. *)
Definition pendingKey : JsString := js "pendingEnrollment".

(** The window was not sent anywhere, or the record is in the storage. *)
Definition recordBeforeLeaving (w : World) : Prop :=
  location_href (browser w) = None
  \/ is_Some (sessionStorage (browser w) !! pendingKey).

(** A result of [initiateEnrollment] that completes the enrollment at
    once. *)
Definition completedE9 : EnrollmentResult :=
  {| r_success := true; r_enrollmentId := Some (js "E9");
     r_paymentUrl := None; r_error := None |}.

(** A free course: the catalog has no price for it. *)
Definition priceIsNull : Response :=
  GotPrice (PriceReturns {| data := Some {| course_price := None |};
                            fetchError := None |}).

(** A profile whose name has three parts. *)
Definition profile3 : Profile :=
  {| name := Some (js "Ada King Lovelace"); email_of := None |}.

(** The form of a render whose user left the last name empty. *)
Definition firstNameOnly : FormData :=
  {| firstName := js " Ada"; lastName := []; email := js "ada@x.org";
     phoneNumber := []; acceptTerms := true |}.

(** The answers of the collaborators, as opposed to what the user and the
    parent do. *)
Definition isAnswer (e : Event) : bool :=
  match e with
  | Deliver _ _ => true
  | _ => false
  end.

(** The screens that follow a call of [initiateEnrollment], and the
    enrollment id, are only there when the calls they come from were
    made. *)
Definition stepEvidence (w : World) : Prop :=
  (step (st w) = processing -> (1 <= countIf isInitiate (log w))%nat)
  /\ (step (st w) = success -> (1 <= countIf isSetTimeout (log w))%nat)
  /\ (is_Some (enrollmentId (st w)) -> (1 <= countIf isInitiate (log w))%nat).

(** The user pays, closes the modal before the probe has answered, and the
    parent hides it. *)
Definition payThenClose : list Event :=
  [ClickPay; ClickClose; Rerender (withIsOpen false props1)].

(** A code sent for validation is what [toUpperCase] returned for some
    input. *)
Definition sentUpperCased (up : JsString -> JsString) (e : Effect) : Prop :=
  match e with
  | ValidatePromoCode promo _ _ => exists v, promo = up v
  | _ => True
  end.

(** The promo code field is empty or upper-cased, and every code sent for
    validation is upper-cased. *)
Definition codesUpperCased (up : JsString -> JsString) (w : World) : Prop :=
  (promoCode (st w) = [] \/ exists v, promoCode (st w) = up v)
  /\ Forall (sentUpperCased up) (log w).

(** * Properties *)

(** ** Suspending and resuming *)

Lemma lookup_suspended (l : list Pending) (p : Pending) :
  (l ++ [p]) !! length l = Some p.
Proof. by apply list_lookup_middle. Qed.

Lemma delete_suspended (l : list Pending) (p : Pending) :
  delete (length l) (l ++ [p]) = l.
Proof. rewrite delete_middle. apply app_nil_r. Qed.

(** A submission by a signed-in user suspends at the probe and touches
    nothing but the error message. *)
Lemma handlePayment_signed_in cl w u :
  user (r_props cl) = Some u ->
  handlePayment cl w =
  suspend (AwaitProbe cl u)
    (emit ProbeEnrollments (withState (setErrorMessage None) w)).
Proof. intros Hu. unfold handlePayment. by rewrite Hu. Qed.

(** The probe's answer reaches the submission that waits for it. *)
Lemma deliver_probe cl w u o :
  user (r_props cl) = Some u ->
  deliver (length (pending w)) (GotProbe o) (handlePayment cl w) =
  handlePayment_probed cl u o
    (emit ProbeEnrollments (withState (setErrorMessage None) w)).
Proof.
  intros Hu. rewrite (handlePayment_signed_in _ _ _ Hu).
  unfold deliver. cbn [pending suspend emit withState].
  rewrite lookup_suspended. f_equal.
  unfold resume. cbn. by rewrite delete_suspended.
Qed.

(** C2, as amended: when the probe reports the missing table, the
    submission emits nothing after the probe, leaves no continuation behind
    (so [initiateEnrollment] is never called by it), and goes to the error
    step with the setup message straight from the step the payment was
    triggered in; the handler does not enter the processing step before the
    probe has answered. *)
Theorem C2_setup_required_short_circuit cl w u e :
  user (r_props cl) = Some u ->
  code e = js "PGRST116" ->
  let w1 := handlePayment cl w in
  let w2 := deliver (length (pending w)) (GotProbe (ProbeReturns (Some e))) w1 in
  step (st w1) = step (st w)
  /\ step (st w2) = error
  /\ errorMessage (st w2) = Some setupRequiredMessage
  /\ log w2 = log w ++ [ProbeEnrollments]
  /\ pending w2 = pending w.
Proof.
  intros Hu He w1 w2. subst w2 w1.
  rewrite (deliver_probe _ _ _ _ Hu).
  rewrite (handlePayment_signed_in _ _ _ Hu).
  unfold handlePayment_probed. rewrite He.
  rewrite bool_decide_eq_true_2 by reflexivity.
  repeat split.
Qed.

Lemma C2_setup_required_short_circuit_witness :
  let w := run asciiUpperCase (mount props1 emptyBrowser) toPaymentScreen in
  let e := {| code := js "PGRST116" |} in
  let w1 := handlePayment (render w) w in
  let w2 := deliver (length (pending w)) (GotProbe (ProbeReturns (Some e))) w1 in
  user (r_props (render w)) = Some user1
  /\ code e = js "PGRST116"
  /\ step (st w1) = step (st w)
  /\ step (st w2) = error
  /\ errorMessage (st w2) = Some setupRequiredMessage
  /\ log w2 = log w ++ [ProbeEnrollments]
  /\ pending w2 = pending w.
Proof.
  intros w e w1 w2.
  split; [reflexivity | split; [reflexivity |]].
  apply (C2_setup_required_short_circuit (render w) w user1 e);
    reflexivity.
Defined.

(** C2, as stated, fails: on the payment screen of a paid course the user
    pays, the probe reports the missing table, and the workflow ends in the
    error step with the setup message without ever having been in the
    processing step. *)
Lemma C2_failed_without_processing :
  let es := toPaymentScreen ++ [ClickPay; Deliver 0 (GotProbe notFound)] in
  let ws := trajectory asciiUpperCase (mount props1 emptyBrowser) es in
  let w := run asciiUpperCase (mount props1 emptyBrowser) es in
  step (st w) = error
  /\ errorMessage (st w) = Some setupRequiredMessage
  /\ map (fun w' => step (st w')) ws
     = [details; details; details; details; payment; payment; error]
  /\ ~ In processing (map (fun w' => step (st w')) ws).
Proof.
  vm_compute. repeat split. intros H.
  repeat (destruct H as [H | H]; [discriminate H |]). exact H.
Qed.

(** After a probe that did not report the missing table the submission
    goes on to [initiateEnrollment]. *)
Lemma startProcessing_spec cl u w :
  let w' := startProcessing cl u w in
  step (st w') = processing
  /\ errorMessage (st w') = errorMessage (st w)
  /\ pending w' = pending w ++ [AwaitInitiate cl u]
  /\ log w' = log w ++
       [InitiateEnrollment (user_id u) (course_id (course (r_props cl)))
          (finalPrice (r_state cl)) (email (formData (r_state cl)))
          (userName (formData (r_state cl)))
          (phoneNumber (formData (r_state cl)))
          (bool_decide (paymentMethod (r_state cl) = eversend))].
Proof. repeat split. Qed.

(** C10: a probe that throws is logged and payment initiation proceeds;
    for every answer of the probe, the submission stops with the setup
    message exactly when the probe returned an error with code PGRST116,
    and otherwise enters the processing step and calls
    [initiateEnrollment]. *)
Theorem C10_probe_exception_proceeds cl w u :
  user (r_props cl) = Some u ->
  let w1 := handlePayment cl w in
  let call :=
    InitiateEnrollment (user_id u) (course_id (course (r_props cl)))
      (finalPrice (r_state cl)) (email (formData (r_state cl)))
      (userName (formData (r_state cl)))
      (phoneNumber (formData (r_state cl)))
      (bool_decide (paymentMethod (r_state cl) = eversend)) in
  (forall t,
     let w2 := deliver (length (pending w)) (GotProbe (ProbeThrows t)) w1 in
     step (st w2) = processing
     /\ errorMessage (st w2) = None
     /\ pending w2 = pending w ++ [AwaitInitiate cl u]
     /\ log w2 = log w ++ [ProbeEnrollments;
                           ConsoleError (js "Database check failed:"); call])
  /\ (forall o,
        let w2 := deliver (length (pending w)) (GotProbe o) w1 in
        if reportsNotFound o then
          step (st w2) = error
          /\ errorMessage (st w2) = Some setupRequiredMessage
          /\ pending w2 = pending w
          /\ log w2 = log w ++ [ProbeEnrollments]
        else
          step (st w2) = processing
          /\ errorMessage (st w2) = None
          /\ pending w2 = pending w ++ [AwaitInitiate cl u]
          /\ last (log w2) = Some call).
Proof.
  intros Hu w1 call. subst w1. split.
  - intros t w2. subst w2. rewrite (deliver_probe _ _ _ _ Hu).
    cbn [handlePayment_probed]. repeat split.
    cbn. by rewrite <- !app_assoc.
  - intros o w2. subst w2. rewrite (deliver_probe _ _ _ _ Hu).
    destruct o as [t | [e |]]; cbn [reportsNotFound handlePayment_probed].
    + repeat split. cbn. by rewrite last_snoc.
    + destruct (bool_decide (code e = js "PGRST116")).
      * repeat split.
      * repeat split. cbn. by rewrite last_snoc.
    + repeat split. cbn. by rewrite last_snoc.
Qed.

Lemma C10_probe_exception_proceeds_witness :
  let w := run asciiUpperCase (mount props1 emptyBrowser) toPaymentScreen in
  let w2 := deliver (length (pending w))
              (GotProbe (ProbeThrows (ThrownError (js "Failed to fetch"))))
              (handlePayment (render w) w) in
  user (r_props (render w)) = Some user1
  /\ step (st w2) = processing
  /\ pending w2 = pending w ++ [AwaitInitiate (render w) user1].
Proof.
  intros w w2. split; [reflexivity |].
  destruct (C10_probe_exception_proceeds (render w) w user1 eq_refl)
    as [Hthrown _].
  destruct (Hthrown (ThrownError (js "Failed to fetch")))
    as (Hstep & _ & Hpending & _).
  split; [exact Hstep | exact Hpending].
Defined.

Lemma deliver_initiate n cl u o w :
  pending w !! n = Some (AwaitInitiate cl u) ->
  deliver n (GotInitiate o) w = handlePayment_initiated cl u o (resume n w).
Proof. intros H. unfold deliver. by rewrite H. Qed.

(** A probe that does not report the missing table lets the submission
    start processing, with at most a console message in between. *)
Lemma probed_passes cl u o w :
  reportsNotFound o = false ->
  exists w', handlePayment_probed cl u o w = startProcessing cl u w'
             /\ pending w' = pending w /\ browser w' = browser w
             /\ st w' = st w /\ props w' = props w.
Proof.
  intros Ho. destruct o as [t | [e |]]; cbn in Ho |- *.
  - by eexists.
  - rewrite Ho. by eexists.
  - by eexists.
Qed.

(** C3: when [initiateEnrollment] answers a signed-in user's submission
    with success and a payment URL, the record with the returned enrollment
    id and the course, user and payment method of the submission is
    written under [pendingEnrollment], whole and in one write, and the
    navigation to the URL is the very next effect; if the write throws
    there is no navigation at all. *)
Theorem C3_redirect_handoff cl w u o r url :
  user (r_props cl) = Some u ->
  reportsNotFound o = false ->
  r_success r = true ->
  orNull (r_paymentUrl r) = Some url ->
  let record :=
    JSON_stringify
      [ (js "enrollmentId", r_enrollmentId r);
        (js "courseId", Some (course_id (course (r_props cl))));
        (js "userId", Some (user_id u));
        (js "paymentMethod",
          Some (paymentMethodName (paymentMethod (r_state cl)))) ] in
  let w2 := deliver (length (pending w)) (GotProbe o) (handlePayment cl w) in
  let w3 :=
    deliver (length (pending w)) (GotInitiate (InitiateReturns r)) w2 in
  match setItemThrows (browser w) with
  | None =>
      log w3 = log w2 ++ [SetItem (js "pendingEnrollment") record; Navigate url]
      /\ sessionStorage (browser w3) !! js "pendingEnrollment" = Some record
      /\ location_href (browser w3) = Some url
  | Some _ =>
      log w3 = log w2
      /\ sessionStorage (browser w3) = sessionStorage (browser w)
      /\ location_href (browser w3) = location_href (browser w)
      /\ step (st w3) = error
  end.
Proof.
  intros Hu Ho Hs Hurl record w2 w3. subst w3 w2.
  rewrite (deliver_probe _ _ _ _ Hu).
  destruct (probed_passes cl u o
              (emit ProbeEnrollments (withState (setErrorMessage None) w)) Ho)
    as (w' & -> & Hp & Hb & _ & _).
  cbn [pending emit withState] in Hp. cbn [browser emit withState] in Hb.
  rewrite (deliver_initiate (length (pending w)) cl u).
  2:{ destruct (startProcessing_spec cl u w') as (_ & _ & -> & _).
      rewrite Hp. apply lookup_suspended. }
  unfold handlePayment_initiated. rewrite Hs, Hurl. cbn [negb].
  unfold redirectToProvider.
  cbn [browser withState resume startProcessing suspend emit].
  rewrite Hb. destruct (setItemThrows (browser w)) as [t |].
  - unfold paymentCatch.
    cbn [log browser sessionStorage location_href step st emit withBrowser
         withState resume startProcessing suspend setStep].
    rewrite Hb. repeat split.
  - cbn [log browser sessionStorage location_href emit withBrowser
         withState resume startProcessing suspend].
    rewrite lookup_insert_eq. rewrite <- !app_assoc. repeat split.
Qed.

Lemma C3_redirect_handoff_witness :
  let w := run asciiUpperCase (mount props1 emptyBrowser) toPaymentScreen in
  let w3 :=
    deliver (length (pending w)) (GotInitiate (InitiateReturns redirectE1))
      (deliver (length (pending w)) (GotProbe (ProbeReturns None))
         (handlePayment (render w) w)) in
  (user (r_props (render w)) = Some user1
   /\ reportsNotFound (ProbeReturns None) = false
   /\ r_success redirectE1 = true
   /\ orNull (r_paymentUrl redirectE1) = Some (js "https://pay/x"))
  /\ sessionStorage (browser w3) !! js "pendingEnrollment"
     = Some (JSON_stringify
               [ (js "enrollmentId", Some (js "E1"));
                 (js "courseId", Some (js "c1"));
                 (js "userId", Some (js "u1"));
                 (js "paymentMethod", Some (js "eversend")) ])
  /\ location_href (browser w3) = Some (js "https://pay/x").
Proof.
  intros w w3. split; [repeat split |].
  pose proof (C3_redirect_handoff (render w) w user1 (ProbeReturns None)
                redirectE1 (js "https://pay/x")
                eq_refl eq_refl eq_refl eq_refl) as H.
  cbv zeta in H.
  change (setItemThrows (browser w)) with (@None Thrown) in H.
  destruct H as (_ & Hstore & Hhref).
  split; [exact Hstore | exact Hhref].
Defined.

(** ** The catalog price *)

(** A query that throws makes the course free. *)
Lemma price_throws_free t w :
  let w' := fetchCoursePrice_resume (PriceThrows t) w in
  coursePrice (st w') = 0 /\ finalPrice (st w') = 0.
Proof. split; reflexivity. Qed.

(** A query that returns an error leaves both prices as they were. *)
Lemma price_error_unchanged r e w :
  fetchError r = Some e ->
  fetchCoursePrice_resume (PriceReturns r) w = w.
Proof. intros He. unfold fetchCoursePrice_resume. by rewrite He. Qed.

(** C4, the code at the failing input: the modal learns the price 50000,
    is closed and opened again, and the second price query returns an
    error; both prices stay at 50000 instead of falling back to zero. *)
Theorem C4_returned_error_keeps_price :
  let w := run asciiUpperCase (mount props1 emptyBrowser)
             reopenedWithFailingCatalog in
  coursePrice (st w) = 50000 /\ finalPrice (st w) = 50000
  /\ pending w = [].
Proof. vm_compute. repeat split. Qed.

(** ** The authentication guard *)

Lemma handlePayment_anonymous cl w :
  user (r_props cl) = None ->
  handlePayment cl w
  = withState (setErrorMessage (Some (js "User not authenticated"))) w.
Proof. intros Hu. unfold handlePayment. by rewrite Hu. Qed.

(** C6, the code at the failing input: without a signed-in user the pay
    button stores the message and returns; the step stays [payment], where
    no error message is rendered, and never becomes [error]. *)
Theorem C6_anonymous_payment_stays_on_payment_step :
  let w := run asciiUpperCase (mount propsAnonymous emptyBrowser)
             anonymousPays in
  step (st w) = payment
  /\ errorMessage (st w) = Some (js "User not authenticated")
  /\ shownError w = None
  /\ log w = [QueryCoursePrice (js "c1")]
  /\ pending w = [].
Proof. vm_compute. repeat split. Qed.

(** ** Closing *)

Lemma fetchEffect_state w :
  st (fetchEffect w) = st w /\ props (fetchEffect w) = props w.
Proof. unfold fetchEffect. by destruct (_ || _). Qed.

Lemma rerender_state p w :
  st (rerender p w) = st w /\ props (rerender p w) = p.
Proof.
  unfold rerender. destruct (_ && _); [done |].
  destruct (fetchEffect_state (withProps p w)) as [-> ->]. done.
Qed.

Lemma dispatch_rerender up w p : dispatch up w (Rerender p) = rerender p w.
Proof. reflexivity. Qed.







(** C9: a close leaves the promo code, the discount, the promo error, the
    base price and the final price as they were, along with the payment
    method and the validation flag, and so does the reopening that follows
    it: what a promo code did to the price before the close is still there
    when the modal is shown again. *)
Theorem C9_close_keeps_promo_and_price up w p_closed p_open :
  let w' := dispatch up w ClickClose in
  let w'' := run up w [ClickClose; Rerender p_closed; Rerender p_open] in
  (promoAndPricing (st w') = promoAndPricing (st w)
   /\ paymentMethod (st w') = paymentMethod (st w)
   /\ promoValidating (st w') = promoValidating (st w))
  /\ (promoAndPricing (st w'') = promoAndPricing (st w)
      /\ paymentMethod (st w'') = paymentMethod (st w)
      /\ promoValidating (st w'') = promoValidating (st w)).
Proof.
  intros w' w''.
  assert (H : promoAndPricing (st w') = promoAndPricing (st w)
              /\ paymentMethod (st w') = paymentMethod (st w)
              /\ promoValidating (st w') = promoValidating (st w)).
  { subst w'. unfold dispatch. destruct (enabled w ClickClose); [| done].
    cbn [handle]. unfold handleClose. by destruct (bool_decide _). }
  split; [exact H |].
  subst w''. unfold run. cbn [fold_left]. fold w'.
  rewrite !dispatch_rerender.
  destruct (rerender_state p_open (rerender p_closed w')) as [-> _].
  destruct (rerender_state p_closed w') as [-> _]. exact H.
Qed.

(** ** Form validation *)

(** [validateForm] writes nothing but the error message. *)
Lemma validateForm_frame cl s :
  let s' := snd (validateForm cl s) in
  step s' = step s /\ formData s' = formData s
  /\ coursePrice s' = coursePrice s /\ finalPrice s' = finalPrice s
  /\ promoDiscount s' = promoDiscount s /\ promoCode s' = promoCode s.
Proof.
  unfold validateForm.
  repeat (match goal with |- context [if ?b then _ else _] => destruct b end);
    repeat split.
Qed.

(** C5, as stated, fails: a first name of one space satisfies the four
    rules as the specification words them, yet validation rejects the form with the
    first-name error. *)
Lemma C5_space_name_rejected :
  let cl := renderWith spaceNamed 0 in
  let s := r_state cl in
  firstFailure (rules_spec (coursePrice s)) (formData s) = None
  /\ validateForm cl s
     = (false, setErrorMessage (Some (js "First name is required")) s)
  /\ validateForm cl s
     <> outcome (firstFailure (rules_spec (coursePrice s)) (formData s)) s.
Proof. vm_compute. repeat split. discriminate. Qed.

(** C5, as amended: validation is the first failure among four independent
    checks in the order first name, email, phone number (only for a
    positive base price), terms, where a text field passes when it is not
    blank after trimming; it leaves the form fields alone; and a form with
    an empty phone number that passes the other checks is accepted at base
    price zero and rejected with the phone error at a positive one. *)
Theorem C5_validation_order cl s :
  let f := formData (r_state cl) in
  let price := coursePrice (r_state cl) in
  validateForm cl s = outcome (firstFailure (rules_trimmed price) f) s
  /\ formData (snd (validateForm cl s)) = formData s
  /\ (blank (firstName f) = false -> blank (email f) = false ->
      blank (phoneNumber f) = true -> acceptTerms f = true ->
      (price = 0 -> validateForm cl s = (true, s))
      /\ (0 < price ->
          validateForm cl s
          = (false, setErrorMessage
                      (Some (js "Phone number is required for paid courses"))
                      s))).
Proof.
  intros f price. split; [| split].
  - unfold validateForm, firstFailure, rules_trimmed, blank. fold f price.
    cbn [find fst snd]. rewrite !negb_involutive.
    destruct (truthy (trim (firstName f))); [| reflexivity].
    destruct (truthy (trim (email f))); [| reflexivity].
    destruct (0 <? price); cbn [negb andb orb];
      destruct (truthy (trim (phoneNumber f))); cbn [negb];
      destruct (acceptTerms f); reflexivity.
  - apply validateForm_frame.
  - unfold blank. intros Hf He Hp Ht.
    apply negb_false_iff in Hf, He. apply negb_true_iff in Hp.
    unfold validateForm. fold f price. rewrite Hf, He, Hp, Ht. cbn [negb].
    split; intros Hprice.
    + subst price. rewrite Hprice. reflexivity.
    + apply Z.ltb_lt in Hprice. rewrite Hprice. reflexivity.
Qed.

Lemma C5_validation_order_witness :
  let f := {| firstName := js "Ada"; lastName := []; email := js "ada@x.org";
              phoneNumber := []; acceptTerms := true |} in
  (blank (firstName f) = false /\ blank (email f) = false
   /\ blank (phoneNumber f) = true /\ acceptTerms f = true)
  /\ validateForm (renderWith f 0) (initialState props1)
     = (true, initialState props1)
  /\ validateForm (renderWith f 50000) (initialState props1)
     = (false, setErrorMessage
                 (Some (js "Phone number is required for paid courses"))
                 (initialState props1)).
Proof.
  intros f. split; [repeat split |]. split.
  - destruct (C5_validation_order (renderWith f 0) (initialState props1))
      as (_ & _ & H).
    apply H; reflexivity.
  - destruct (C5_validation_order (renderWith f 50000) (initialState props1))
      as (_ & _ & H).
    apply H; reflexivity.
Defined.

(** ** Promo validation *)

Lemma deliver_promo n cl o w :
  pending w !! n = Some (AwaitPromo cl) ->
  deliver n (GotPromo o) w = handleValidatePromo_resume cl o (resume n w).
Proof. intros H. unfold deliver. by rewrite H. Qed.

(** C1, as stated, fails: the code [A] is submitted, the field is changed
    to [B], and the valid result for [A] then replaces both the discount
    and the final price. *)
Lemma C1_stale_result_applied :
  let wB := run asciiUpperCase (mount props1 emptyBrowser) staleEdit in
  let wA := dispatch asciiUpperCase wB
              (Deliver 0 (GotPromo (PromoReturns save20))) in
  (exists cl, pending wB !! 0%nat = Some (AwaitPromo cl)
              /\ promoCode (r_state cl) = js "A")
  /\ promoCode (st wB) = js "B"
  /\ promoCode (st wA) = js "B"
  /\ ~ (finalPrice (st wA) = finalPrice (st wB)
        /\ promoDiscount (st wA) = promoDiscount (st wB)).
Proof.
  split; [eexists; split; reflexivity |].
  split; [reflexivity |]. split; [reflexivity |].
  vm_compute. intros [H _]. discriminate H.
Qed.

(** C1, as amended: after the field has been edited, the result of the
    validation in flight is applied whatever the field holds now.  A valid
    result with a final price sets the discount and the final price; any
    other result sets the discount to none and the final price to the base
    price the validation was submitted with, which is where the edit left
    them unless the base price changed in between; a rejected call changes
    nothing.  The field keeps the edited value. *)
Theorem C1_result_applied_whatever_the_field up w n cl value o :
  pending w !! n = Some (AwaitPromo cl) ->
  let wB := handlePromoChange up (render w) value w in
  let wA := deliver n (GotPromo o) wB in
  promoCode (st wA) = up value
  /\ match o with
     | PromoThrows _ => st wA = st wB
     | PromoReturns r =>
         match valid r, final_price r with
         | true, Some fp =>
             finalPrice (st wA) = fp
             /\ promoDiscount (st wA)
                = Some {| percentage := discount_percentage r;
                          amount := discount_amount r |}
         | _, _ =>
             promoDiscount (st wA) = promoDiscount (st wB)
             /\ finalPrice (st wA) = coursePrice (r_state cl)
             /\ (coursePrice (r_state cl) = coursePrice (st w) ->
                 finalPrice (st wA) = finalPrice (st wB))
         end
     end.
Proof.
  intros Hp wB wA. subst wA wB.
  rewrite (deliver_promo n cl) by exact Hp.
  destruct o as [t | r]; cbn [handleValidatePromo_resume].
  - split; reflexivity.
  - destruct (valid r), (final_price r); repeat split; cbn; congruence.
Qed.

Lemma C1_result_applied_whatever_the_field_witness :
  let w := run asciiUpperCase (mount props1 emptyBrowser)
             [Deliver 0 (priceIs 50000); ChangePromo (js "a"); ClickApply] in
  let wB := handlePromoChange asciiUpperCase (render w) (js "b") w in
  let wA := deliver 0 (GotPromo (PromoReturns save20)) wB in
  (exists cl, pending w !! 0%nat = Some (AwaitPromo cl))
  /\ promoCode (st wA) = js "B"
  /\ finalPrice (st wA) = 40000.
Proof.
  intros w wB wA. split; [eexists; reflexivity |].
  destruct (C1_result_applied_whatever_the_field asciiUpperCase w 0 _
              (js "b") (PromoReturns save20) eq_refl) as [Hcode Hres].
  split; [exact Hcode | exact (proj1 Hres)].
Defined.

(** A stale rejection leaves the price where the edit put it, and shows
    its error under a field that now holds another code. *)
Example stale_rejection_shows_error :
  let wB := run asciiUpperCase (mount props1 emptyBrowser) staleEdit in
  let wA := dispatch asciiUpperCase wB
              (Deliver 0 (GotPromo (PromoReturns rejected))) in
  finalPrice (st wA) = finalPrice (st wB)
  /\ promoDiscount (st wA) = promoDiscount (st wB)
  /\ promoCode (st wA) = js "B"
  /\ promoError (st wA) = Some (js "Promo code not found").
Proof. vm_compute. repeat split. Qed.

(** ** The pricing invariant *)

Lemma priceFrame_refl w : priceFrame w w.
Proof. by repeat split. Qed.

Lemma priceFrame_sound w w' :
  pricingSound w -> priceFrame w w' -> pricingSound w'.
Proof.
  intros [[Hle Heq] Hcl] (Hc & Hf & Hd & Hp). split; [split |].
  - rewrite Hc, Hf. exact Hle.
  - rewrite Hc, Hf, Hd. exact Heq.
  - intros cl Hin. rewrite Hc. apply Hcl, Hp, Hin.
Qed.

Lemma no_promo_pending l cl :
  existsb isAwaitPromo l = false -> AwaitPromo cl ∉ l.
Proof.
  induction l as [| p l IH]; cbn [existsb].
  - intros _. apply not_elem_of_nil.
  - intros H. apply orb_false_iff in H as [Hp Hl].
    intros Hin. apply elem_of_cons in Hin as [<- | Hin].
    + discriminate Hp.
    + by apply (IH Hl).
Qed.

Lemma fetchEffect_frame w : priceFrame w (fetchEffect w).
Proof.
  unfold fetchEffect. destruct (_ || _); [apply priceFrame_refl |].
  repeat split. cbn. intros cl H. by promo_mem.
Qed.

Lemma rerender_frame p w : priceFrame w (rerender p w).
Proof.
  unfold rerender. destruct (_ && _); [by repeat split |].
  destruct (fetchEffect_frame (withProps p w)) as (Hc & Hf & Hd & Hp).
  by repeat split.
Qed.

Lemma handlePayment_frame cl w : priceFrame w (handlePayment cl w).
Proof.
  unfold handlePayment. destruct (user (r_props cl)); [| by repeat split].
  repeat split. cbn. intros cl' H. by promo_mem.
Qed.

Lemma handleProceedToPayment_frame cl w :
  priceFrame w (handleProceedToPayment cl w).
Proof.
  unfold handleProceedToPayment.
  pose proof (validateForm_frame cl (st (withState (setErrorMessage None) w)))
    as (_ & _ & Hc & Hf & Hd & _).
  destruct (validateForm cl (st (withState (setErrorMessage None) w)))
    as [ok s2]. cbn [snd] in Hc, Hf, Hd.
  destruct ok; cbn [negb].
  - destruct (coursePrice (r_state cl) =? 0).
    + destruct (handlePayment_frame cl
                  (withState (fun _ => s2) (withState (setErrorMessage None) w)))
        as (Hc' & Hf' & Hd' & Hp').
      split; [by rewrite Hc' | split; [by rewrite Hf' |
        split; [by rewrite Hd' | exact Hp']]].
    + by repeat split.
  - by repeat split.
Qed.

Lemma handleClose_frame cl w : priceFrame w (handleClose cl w).
Proof. unfold handleClose. destruct (bool_decide _); by repeat split. Qed.

Lemma handlePayment_probed_frame cl u o n w :
  priceFrame w (handlePayment_probed cl u o (resume n w)).
Proof.
  destruct o as [t | [e |]]; cbn [handlePayment_probed];
    [| destruct (bool_decide _) |];
    repeat split; cbn; intros cl' H; by promo_mem.
Qed.

Lemma handlePayment_initiated_frame cl u o n w :
  priceFrame w (handlePayment_initiated cl u o (resume n w)).
Proof.
  destruct o as [t | r]; cbn [handlePayment_initiated].
  - repeat split. cbn. intros cl' H. by promo_mem.
  - destruct (negb (r_success r)).
    + repeat split. cbn. intros cl' H. by promo_mem.
    + destruct (orNull (r_paymentUrl r)) as [url |].
      * unfold redirectToProvider.
        cbn [browser withState resume].
        destruct (setItemThrows (browser w));
          repeat split; cbn [pending emit withBrowser withState resume paymentCatch];
          intros cl' H; by promo_mem.
      * repeat split. cbn. intros cl' H. by promo_mem.
Qed.

(** The answer of the catalog keeps the invariant when no validation is in
    flight. *)
Lemma price_sound o n w :
  pricingSound w ->
  existsb isAwaitPromo (pending w) = false ->
  pricingSound (fetchCoursePrice_resume o (resume n w)).
Proof.
  intros [[Hle Heq] Hcl] Hnone.
  assert (Hfree : forall w', pending w' = delete n (pending w) ->
                             closuresAgree w').
  { intros w' Hp cl Hin. rewrite Hp in Hin. promo_mem.
    by apply (no_promo_pending _ cl) in Hnone. }
  destruct o as [t | r]; cbn [fetchCoursePrice_resume].
  - split; [split |]; [cbn; lia | done | by apply Hfree].
  - destruct (fetchError r), (data r);
      (split; [split |]; [| | by apply Hfree]); cbn; try done; lia.
Qed.

(** The answer of the validation keeps the invariant when a valid result
    does not exceed the base price it was asked about. *)
Lemma promo_sound cl o n w :
  pricingSound w ->
  pending w !! n = Some (AwaitPromo cl) ->
  (forall r fp, o = PromoReturns r -> valid r = true ->
                final_price r = Some fp -> fp <= coursePrice (r_state cl)) ->
  pricingSound (handleValidatePromo_resume cl o (resume n w)).
Proof.
  intros [[Hle Heq] Hcl] Hp Hred.
  pose proof (Hcl cl (list_elem_of_lookup_2 _ _ _ Hp)) as Hagree.
  assert (Hrest : forall w', pending w' = delete n (pending w) ->
                             coursePrice (st w') = coursePrice (st w) ->
                             closuresAgree w').
  { intros w' Hp' Hc cl' Hin. rewrite Hp' in Hin. promo_mem.
    rewrite Hc. by apply Hcl. }
  destruct o as [t | r]; cbn [handleValidatePromo_resume].
  - split; [split |]; [exact Hle | exact Heq | by apply Hrest].
  - destruct (valid r) eqn:Hv, (final_price r) as [fp |] eqn:Hfp;
      (split; [split |]; [| | by apply Hrest]); cbn; try done; try lia.
    rewrite <- Hagree. by apply (Hred r fp).
Qed.

Lemma mount_sound p b : pricingSound (mount p b).
Proof.
  apply priceFrame_sound with
    {| props := p; st := initialState p; pending := []; browser := b;
       log := [] |}.
  - split; [split; cbn; [lia | done] |].
    intros cl H. cbn in H. by promo_mem.
  - apply fetchEffect_frame.
Qed.

Lemma dispatch_sound up w e :
  pricingSound w -> promoReduces w e -> priceSettled w e ->
  pricingSound (dispatch up w e).
Proof.
  intros Hw Hred Hset. unfold dispatch.
  destruct (enabled w e); [| exact Hw].
  destruct e as [p | i value checked | value | | | m | | | | | n r];
    cbn [handle].
  - apply (priceFrame_sound w); [exact Hw | apply rerender_frame].
  - apply (priceFrame_sound w); [exact Hw | by repeat split].
  - destruct Hw as [_ Hcl]. split; [split; cbn; [lia | done] |].
    intros cl H. by apply Hcl.
  - unfold handleValidatePromo. destruct (negb _).
    + apply (priceFrame_sound w); [exact Hw | by repeat split].
    + destruct Hw as [Hinv Hcl]. split; [exact Hinv |].
      intros cl H. cbn in H. promo_mem.
      * by apply Hcl.
      * by inversion H.
  - apply (priceFrame_sound w); [exact Hw | apply handleProceedToPayment_frame].
  - apply (priceFrame_sound w); [exact Hw | by repeat split].
  - apply (priceFrame_sound w); [exact Hw | by repeat split].
  - apply (priceFrame_sound w); [exact Hw | apply handlePayment_frame].
  - apply (priceFrame_sound w); [exact Hw | by repeat split].
  - apply (priceFrame_sound w); [exact Hw | apply handleClose_frame].
  - unfold deliver. cbn [promoReduces priceSettled] in Hred, Hset.
    destruct (pending w !! n) as [[| cl | cl u | cl u |] |] eqn:Hp;
      destruct r as [o | o | o | o |]; try exact Hw.
    + by apply price_sound.
    + apply promo_sound; [exact Hw | exact Hp |].
      intros r fp -> Hv Hfp. by apply Hred.
    + apply (priceFrame_sound w);
        [exact Hw | apply handlePayment_probed_frame].
    + apply (priceFrame_sound w);
        [exact Hw | apply handlePayment_initiated_frame].
    + apply (priceFrame_sound w); [exact Hw |].
      repeat split. cbn. intros cl H. by promo_mem.
Qed.

Lemma run_sound up es : forall w,
  pricingSound w -> admissible up w es -> pricingSound (run up w es).
Proof.
  induction es as [| e es IH]; intros w Hw Hadm; [exact Hw |].
  destruct Hadm as (Hred & Hset & Hrest).
  apply IH; [by apply dispatch_sound | exact Hrest].
Qed.

(** C8, as stated, fails: the component stores the final price of a valid
    validation result as it comes, so a result above the base price puts
    the final price above the base price. *)
Lemma C8_surcharge_breaks_invariant :
  let w := run asciiUpperCase (mount props1 emptyBrowser) surcharged in
  coursePrice (st w) = 50000
  /\ finalPrice (st w) = 60000
  /\ ~ finalPrice (st w) <= coursePrice (st w).
Proof.
  split; [reflexivity |]. split; [reflexivity |].
  vm_compute. intros H. by apply H.
Qed.

(** The invariant also needs the base price to hold still while a
    validation is in flight: here every valid result is a reduction, and
    the final price still ends above the base price. *)
Example repriced_in_flight :
  let w := run asciiUpperCase (mount props1 emptyBrowser) repricedInFlight in
  coursePrice (st w) = 30000 /\ finalPrice (st w) = 40000.
Proof. split; reflexivity. Qed.

(** C8, as amended: along every run in which a valid validation result
    never exceeds the base price it was asked about and the catalog does
    not answer while a validation is in flight, the final price is at most
    the base price and equals it whenever no discount is applied; an edit
    of the promo code input always clears the discount and sets the final
    price to the base price; and the amount handed to [initiateEnrollment]
    is the final price of the render the payment was triggered in. *)
Theorem C8_pricing_invariant up p b es :
  admissible up (mount p b) es ->
  let w := run up (mount p b) es in
  pricingInvariant (st w)
  /\ (forall value,
        let w' := handlePromoChange up (render w) value w in
        promoDiscount (st w') = None
        /\ finalPrice (st w') = coursePrice (st w')
        /\ coursePrice (st w') = coursePrice (st w))
  /\ (forall u o,
        user (props w) = Some u -> reportsNotFound o = false ->
        let w2 := deliver (length (pending w)) (GotProbe o)
                    (handlePayment (render w) w) in
        last (log w2)
        = Some (InitiateEnrollment (user_id u) (course_id (course (props w)))
                  (finalPrice (st w)) (email (formData (st w)))
                  (userName (formData (st w))) (phoneNumber (formData (st w)))
                  (bool_decide (paymentMethod (st w) = eversend)))).
Proof.
  intros Hadm w. split; [| split].
  - apply (run_sound up es (mount p b) (mount_sound p b) Hadm).
  - intros value w'. repeat split.
  - intros u o Hu Ho w2. subst w2.
    rewrite (deliver_probe (render w) w u o Hu).
    destruct (probed_passes (render w) u o
                (emit ProbeEnrollments (withState (setErrorMessage None) w)) Ho)
      as (w' & -> & _).
    destruct (startProcessing_spec (render w) u w') as (_ & _ & _ & ->).
    apply last_snoc.
Qed.

Lemma C8_pricing_invariant_witness :
  let w := run asciiUpperCase (mount props1 emptyBrowser) save20Applied in
  admissible asciiUpperCase (mount props1 emptyBrowser) save20Applied
  /\ (coursePrice (st w) = 50000 /\ finalPrice (st w) = 40000
      /\ step (st w) = payment)
  /\ pricingInvariant (st w).
Proof.
  intros w.
  assert (Hadm : admissible asciiUpperCase (mount props1 emptyBrowser)
                   save20Applied).
  { vm_compute. repeat split.
    intros fp _ Hfp. injection Hfp as <-. discriminate. }
  split; [exact Hadm |]. split; [repeat split |].
  exact (proj1 (C8_pricing_invariant asciiUpperCase props1 emptyBrowser
                  save20Applied Hadm)).
Defined.

(** ** The examples of the specification *)

(** The end-to-end example: 50000 with [SAVE20] is payable at 40000, and a
    completed payment goes to the success step and, after the delay,
    notifies the caller and closes. *)
Example save20_end_to_end :
  let completed :=
    {| r_success := true; r_enrollmentId := Some (js "E9");
       r_paymentUrl := None; r_error := None |} in
  let w := run asciiUpperCase (mount props1 emptyBrowser)
             (save20Applied
              ++ [ClickPay; Deliver 0 (GotProbe (ProbeReturns None));
                  Deliver 0 (GotInitiate (InitiateReturns completed));
                  Deliver 0 TimerFired]) in
  step (st w) = success
  /\ enrollmentId (st w) = Some (js "E9")
  /\ log w = [QueryCoursePrice (js "c1");
              ValidatePromoCode (js "SAVE20") (js "c1") 50000;
              ProbeEnrollments;
              InitiateEnrollment (js "u1") (js "c1") 40000 (js "ada@x.org")
                (js "Ada Lovelace") (js "+256700") true;
              SetTimeout 2000; OnEnrollmentComplete; OnClose].
Proof. vm_compute. repeat split. Qed.

(** The free-course fast path: a valid form goes from the details step to
    processing and success without the payment step. *)
Example free_course_fast_path :
  let completed :=
    {| r_success := true; r_enrollmentId := Some (js "E2");
       r_paymentUrl := None; r_error := None |} in
  let es := [Deliver 0 (priceIs 0); Change In_acceptTerms [] true; Submit;
             Deliver 0 (GotProbe (ProbeReturns None));
             Deliver 0 (GotInitiate (InitiateReturns completed))] in
  map (fun w => step (st w))
    (trajectory asciiUpperCase (mount props1 emptyBrowser) es)
  = [details; details; details; details; processing; success].
Proof. vm_compute. reflexivity. Qed.

(** The members of the stored record appear in the order of the object
    literal, each key and value quoted. *)
Example stringify_record :
  JSON_stringify [(js "enrollmentId", Some (js "E1")); (js "x", None);
                  (js "userId", Some (js "u1"))]
  = [123%N; 34%N] ++ js "enrollmentId" ++ [34%N; 58%N; 34%N] ++ js "E1"
    ++ [34%N; 44%N; 34%N] ++ js "userId" ++ [34%N; 58%N; 34%N] ++ js "u1"
    ++ [34%N; 125%N].
Proof. reflexivity. Qed.

(** The close that follows a success goes to the parent directly: the
    step and the form stay as they were. *)
Example success_timer_keeps_state :
  let completed :=
    {| r_success := true; r_enrollmentId := Some (js "E9");
       r_paymentUrl := None; r_error := None |} in
  let es := save20Applied
            ++ [ClickPay; Deliver 0 (GotProbe (ProbeReturns None));
                Deliver 0 (GotInitiate (InitiateReturns completed))] in
  let w := run asciiUpperCase (mount props1 emptyBrowser) es in
  let w' := dispatch asciiUpperCase w (Deliver 0 TimerFired) in
  st w' = st w /\ step (st w') = success
  /\ log w' = log w ++ [OnEnrollmentComplete; OnClose].
Proof. vm_compute. repeat split. Qed.

(** ** No navigation without the write *)

Lemma guardedFrom_app prev l s :
  guardedFrom prev (l ++ s)
  = guardedFrom prev l && guardedFrom (lastOr prev l) s.
Proof.
  revert prev. induction l as [| e l IH]; intros prev; [reflexivity |].
  cbn [app guardedFrom]. rewrite IH, andb_assoc. do 2 f_equal.
  unfold lastOr. destruct l as [| e' l']; [reflexivity |].
  change (last (e :: e' :: l')) with (last (e' :: l')).
  destruct (last (e' :: l')) eqn:Hlast; [reflexivity |].
  by apply last_None in Hlast.
Qed.

Lemma guardedFrom_quiet prev s :
  forallb (fun e => negb (isNavigate e)) s = true -> guardedFrom prev s = true.
Proof.
  revert prev. induction s as [| e s IH]; intros prev; [reflexivity |].
  cbn [forallb guardedFrom]. intros H. apply andb_true_iff in H as [He Hs].
  apply negb_true_iff in He. rewrite He. by apply IH.
Qed.

Lemma guardedFrom_safe prev l s :
  guardedFrom prev l = true -> safeSuffix s ->
  guardedFrom prev (l ++ s) = true.
Proof.
  intros Hl Hs. rewrite guardedFrom_app, Hl. cbn [andb].
  destruct Hs as [Hq | (value & url & ->)].
  - by apply guardedFrom_quiet.
  - reflexivity.
Qed.

Lemma fetchEffect_log w :
  exists s, log (fetchEffect w) = log w ++ s /\ safeSuffix s.
Proof. unfold fetchEffect. destruct (_ || _); log_suffix. Qed.

Lemma handlePayment_log cl w :
  exists s, log (handlePayment cl w) = log w ++ s /\ safeSuffix s.
Proof. unfold handlePayment. destruct (user (r_props cl)); log_suffix. Qed.

Lemma dispatch_log up w e :
  exists s, log (dispatch up w e) = log w ++ s /\ safeSuffix s.
Proof.
  unfold dispatch. destruct (enabled w e); [| log_suffix].
  destruct e as [p | i value checked | value | | | m | | | | | n r];
    cbn [handle]; try log_suffix.
  - unfold rerender. destruct (_ && _); [log_suffix |].
    apply (fetchEffect_log (withProps p w)).
  - unfold handleValidatePromo. destruct (negb _); log_suffix.
  - unfold handleProceedToPayment.
    destruct (validateForm _ _) as [ok s2]. destruct ok; cbn [negb].
    + destruct (_ =? _); [| log_suffix].
      apply (handlePayment_log (render w)
               (withState (fun _ => s2) (withState (setErrorMessage None) w))).
    + log_suffix.
  - apply handlePayment_log.
  - unfold handleClose. destruct (bool_decide _); log_suffix.
  - unfold deliver.
    destruct (pending w !! n) as [[| cl | cl u | cl u |] |];
      destruct r as [o | o | o | o |]; try log_suffix.
    + destruct o as [t | r]; cbn [fetchCoursePrice_resume]; [log_suffix |].
      destruct (fetchError r), (data r); log_suffix.
    + destruct o as [t | r]; cbn [handleValidatePromo_resume]; [log_suffix |].
      destruct (valid r), (final_price r); log_suffix.
    + destruct o as [t | [e |]]; cbn [handlePayment_probed];
        [| destruct (bool_decide _) |]; unfold startProcessing; log_suffix.
    + destruct o as [t | r]; cbn [handlePayment_initiated]; [log_suffix |].
      destruct (negb (r_success r)); [log_suffix |].
      destruct (orNull (r_paymentUrl r)) as [url |]; [| log_suffix].
      unfold redirectToProvider. cbn [browser withState resume].
      destruct (setItemThrows (browser w)); log_suffix.
    + unfold successTimer. log_suffix.
Qed.

(** In every run of the component each navigation in the log comes right
    after a write of the pending enrollment. *)
Lemma navigation_after_write up p b es :
  guardedFrom None (log (run up (mount p b) es)) = true.
Proof.
  assert (Hrun : forall w, guardedFrom None (log w) = true ->
                           guardedFrom None (log (run up w es)) = true).
  { induction es as [| e es IH]; intros w Hw; [exact Hw |].
    apply IH. destruct (dispatch_log up w e) as (s & -> & Hs).
    by apply guardedFrom_safe. }
  apply Hrun. unfold mount.
  destruct (fetchEffect_log
              {| props := p; st := initialState p; pending := [];
                 browser := b; log := [] |}) as (s & -> & Hs).
  by apply guardedFrom_safe.
Qed.

(** * Further properties of the component *)

(** ** Trimming *)

Lemma trimStart_nil s :
  trimStart s = [] <-> forallb isWhiteSpace s = true.
Proof.
  induction s as [| c s IH]; cbn [trimStart forallb]; [done |].
  destruct (isWhiteSpace c); cbn [andb]; [exact IH | done].
Qed.

Lemma forallb_rev {A} (f : A -> bool) (l : list A) :
  forallb f (rev l) = forallb f l.
Proof.
  induction l as [| x l IH]; [reflexivity |].
  cbn [rev forallb]. rewrite forallb_app, IH. cbn [forallb].
  rewrite andb_true_r. apply andb_comm.
Qed.

Lemma forallb_trimStart s :
  forallb isWhiteSpace (trimStart s) = forallb isWhiteSpace s.
Proof.
  induction s as [| c s IH]; [reflexivity |].
  cbn [trimStart]. destruct (isWhiteSpace c) eqn:Hc.
  - cbn [forallb]. by rewrite Hc.
  - reflexivity.
Qed.

(** A string is blank exactly when all its code units are whitespace. *)
Lemma blank_forallb s : blank s = forallb isWhiteSpace s.
Proof.
  unfold blank, trim, trimEnd.
  rewrite <- forallb_trimStart, <- (forallb_rev _ (trimStart s)).
  destruct (forallb isWhiteSpace (rev (trimStart s))) eqn:Hall.
  - apply trimStart_nil in Hall. by rewrite Hall.
  - destruct (trimStart (rev (trimStart s))) as [| c t] eqn:Ht.
    + apply trimStart_nil in Ht. congruence.
    + cbn [rev]. by destruct (rev t).
Qed.

Lemma blank_app s t : blank (s ++ t) = blank s && blank t.
Proof. rewrite !blank_forallb. apply forallb_app. Qed.

Lemma trimStart_idem s : trimStart (trimStart s) = trimStart s.
Proof.
  induction s as [| c s IH]; [reflexivity |].
  cbn [trimStart]. destruct (isWhiteSpace c) eqn:Hc; [exact IH |].
  cbn [trimStart]. by rewrite Hc.
Qed.

Lemma trimStart_snoc s c :
  isWhiteSpace c = false -> trimStart (s ++ [c]) = trimStart s ++ [c].
Proof.
  intros Hc. induction s as [| d s IH]; cbn [app trimStart].
  - by rewrite Hc.
  - destruct (isWhiteSpace d); [exact IH | reflexivity].
Qed.

Lemma trimEnd_cons c s :
  isWhiteSpace c = false -> trimEnd (c :: s) = c :: trimEnd s.
Proof.
  intros Hc. unfold trimEnd. cbn [rev].
  rewrite (trimStart_snoc _ _ Hc), rev_app_distr. reflexivity.
Qed.

Lemma trimStart_head s :
  match trimStart s with
  | [] => True
  | c :: _ => isWhiteSpace c = false
  end.
Proof.
  induction s as [| c s IH]; [done |].
  cbn [trimStart]. destruct (isWhiteSpace c) eqn:Hc; [exact IH | exact Hc].
Qed.

Lemma trimEnd_idem s : trimEnd (trimEnd s) = trimEnd s.
Proof. unfold trimEnd. by rewrite rev_involutive, trimStart_idem. Qed.

(** Trimming a trimmed string changes nothing. *)
Lemma trim_idem s : trim (trim s) = trim s.
Proof.
  unfold trim. pose proof (trimStart_head s) as Hhead.
  destruct (trimStart s) as [| c t]; [reflexivity |].
  rewrite (trimEnd_cons _ _ Hhead). cbn [trimStart]. rewrite Hhead.
  rewrite <- (trimEnd_cons _ _ Hhead). apply trimEnd_idem.
Qed.

Lemma trimStart_blank_app s t :
  forallb isWhiteSpace s = true -> trimStart (s ++ t) = trimStart t.
Proof.
  induction s as [| c s IH]; [done |].
  cbn [forallb app trimStart]. intros H.
  apply andb_true_iff in H as [-> Hs]. by apply IH.
Qed.

Lemma trimStart_app_solid s t :
  forallb isWhiteSpace s = false -> trimStart (s ++ t) = trimStart s ++ t.
Proof.
  induction s as [| c s IH]; [done |].
  cbn [forallb app trimStart]. destruct (isWhiteSpace c); cbn [andb].
  - exact IH.
  - reflexivity.
Qed.

(** Whitespace at the end does not survive the trimming. *)
Lemma trim_app_blank s t :
  forallb isWhiteSpace t = true -> trim (s ++ t) = trim s.
Proof.
  intros Ht. unfold trim.
  destruct (forallb isWhiteSpace s) eqn:Hs.
  - rewrite (trimStart_blank_app s t Hs).
    apply trimStart_nil in Hs, Ht. by rewrite Hs, Ht.
  - rewrite (trimStart_app_solid s t Hs). unfold trimEnd.
    rewrite rev_app_distr.
    rewrite trimStart_blank_app by (by rewrite forallb_rev). reflexivity.
Qed.

(** ** One transition of the machine *)

Lemma validateForm_accepts cl s :
  fst (validateForm cl s) = true ->
  validBasics (formData (r_state cl)) = true /\ snd (validateForm cl s) = s.
Proof.
  unfold validateForm, validBasics, blank.
  destruct (truthy (trim (firstName (formData (r_state cl))))); [| done].
  destruct (truthy (trim (email (formData (r_state cl))))); [| done].
  cbn [negb]. destruct (_ && _); [done |].
  destruct (acceptTerms (formData (r_state cl))); done.
Qed.

(** [validateForm] writes at most the error message. *)
Lemma validateForm_writes cl s :
  snd (validateForm cl s) = s
  \/ exists m, snd (validateForm cl s) = setErrorMessage (Some m) s.
Proof.
  unfold validateForm.
  repeat (match goal with |- context [if ?b then _ else _] => destruct b end);
    cbn [snd]; eauto.
Qed.

Lemma handlePayment_transition w w0 :
  pending w0 = pending w -> log w0 = log w ->
  promoValidating (st w0) = promoValidating (st w) ->
  step (st w) = payment \/ validBasics (formData (st w)) = true ->
  Transition w (handlePayment (render w) w0).
Proof.
  intros Hp Hl Hv Hok. unfold handlePayment. cbn [render r_props].
  destruct (user (props w)) as [u |] eqn:Hu.
  - apply (T_probe w _ u); cbn; congruence.
  - by apply T_quiet.
Qed.

(** Every dispatch is one of the transitions. *)
Lemma dispatch_transition up w e : Transition w (dispatch up w e).
Proof.
  unfold dispatch. destruct (enabled w e) eqn:Hen; [| by apply T_quiet].
  destruct e as [p | i value checked | value | | | m | | | | | n r];
    cbn [handle]; try (by apply T_quiet).
  - unfold rerender. destruct (_ && _); [by apply T_quiet |].
    unfold fetchEffect. destruct (_ || _) eqn:Hskip; [by apply T_quiet |].
    apply orb_false_iff in Hskip as [Hopen Hid].
    apply negb_false_iff in Hopen, Hid.
    apply T_query; try done. intros Hnil.
    cbn [props withProps suspend emit] in Hnil. cbn [props withProps] in Hid.
    by rewrite Hnil in Hid.
  - cbn [enabled] in Hen. unfold handleValidatePromo.
    repeat (apply andb_true_iff in Hen as [Hen ?]).
    match goal with H : negb (_ || _) = true |- _ =>
      apply negb_true_iff, orb_false_iff in H as [Hv Hb] end.
    cbn [render r_state]. rewrite Hb.
    apply T_validate; try done.
    by apply Z.ltb_lt.
  - cbn [enabled] in Hen. unfold handleProceedToPayment.
    pose proof (validateForm_accepts (render w)
                  (st (withState (setErrorMessage None) w))) as Hacc.
    pose proof (validateForm_writes (render w)
                  (st (withState (setErrorMessage None) w))) as Hwr.
    destruct (validateForm _ _) as [ok s2]. cbn [fst snd] in Hacc, Hwr.
    destruct ok; cbn [negb];
      [| destruct Hwr as [-> | [m ->]]; by apply T_quiet].
    destruct (Hacc eq_refl) as [Hvalid ->].
    destruct (_ =? _); [| by apply T_quiet].
    apply handlePayment_transition; try done. by right.
  - cbn [enabled] in Hen.
    apply andb_true_iff in Hen as [Hen _].
    apply andb_true_iff in Hen as [_ Hstep].
    apply bool_decide_eq_true in Hstep.
    apply handlePayment_transition; try done. by left.
  - unfold handleClose. destruct (bool_decide _); [by apply T_close |].
    by apply T_quiet.
  - unfold deliver.
    destruct (pending w !! n) as [[| cl | cl u | cl u |] |] eqn:Hp;
      destruct r as [o | o | o | o |]; try (by apply T_quiet).
    + destruct o as [t | r]; cbn [fetchCoursePrice_resume].
      * apply (T_price w _ n [ConsoleError (js "Error fetching course price:")]);
          try done. by right.
      * apply (T_price w _ n []); try done.
        -- by destruct (fetchError r), (data r).
        -- destruct (fetchError r), (data r); cbn; by rewrite app_nil_r.
        -- by left.
        -- by destruct (fetchError r), (data r).
    + destruct o as [t | r]; cbn [handleValidatePromo_resume].
      * by apply (T_promo_thrown w _ n cl).
      * apply (T_promo_returned w _ n cl); try done;
          by destruct (valid r), (final_price r).
    + destruct o as [t | [e |]]; cbn [handlePayment_probed].
      * apply (T_probe_go w _ n cl u [ConsoleError (js "Database check failed:")]);
          try done.
        -- cbn. by rewrite <- app_assoc.
        -- by right.
      * destruct (bool_decide _).
        -- by apply (T_probe_stop w _ n cl u).
        -- apply (T_probe_go w _ n cl u []); try done. by left.
      * apply (T_probe_go w _ n cl u []); try done. by left.
    + destruct o as [t | r]; cbn [handlePayment_initiated].
      * by apply (T_initiate_failed w _ n cl u).
      * destruct (negb (r_success r)); [by apply (T_initiate_failed w _ n cl u) |].
        destruct (orNull (r_paymentUrl r)) as [url |].
        -- unfold redirectToProvider. cbn [browser withState resume].
           destruct (setItemThrows (browser w)).
           ++ by apply (T_initiate_failed w _ n cl u).
           ++ apply (T_initiate_redirect w _ n cl u
                       (JSON_stringify (pendingEnrollmentRecord cl u r)) url);
                try done.
              cbn [log emit withBrowser withState resume].
              by rewrite <- app_assoc.
        -- by apply (T_initiate_completed w _ n cl u).
    + apply (T_timer w _ n); try done.
      unfold successTimer. cbn [log emit resume]. by rewrite <- app_assoc.
Qed.

Lemma mount_transition p b : Transition (firstRender p b) (mount p b).
Proof.
  unfold mount. fold (firstRender p b). unfold fetchEffect.
  destruct (_ || _) eqn:Hskip; [by apply T_quiet |].
  apply orb_false_iff in Hskip as [Hopen Hid].
  apply negb_false_iff in Hopen, Hid.
  apply T_query; try done. intros Hnil.
  cbn [props firstRender suspend emit] in Hnil. cbn [props firstRender] in Hid.
  by rewrite Hnil in Hid.
Qed.

(** What every transition keeps, every run keeps. *)
Lemma run_keeps up (I : World -> Prop) :
  (forall w w', I w -> Transition w w' -> I w') ->
  forall es w, I w -> I (run up w es).
Proof.
  intros Hstep es. induction es as [| e es IH]; intros w Hw; [exact Hw |].
  apply IH, (Hstep w); [exact Hw | apply dispatch_transition].
Qed.

Lemma run_from_mount_keeps up (I : World -> Prop) p b es :
  (forall w w', I w -> Transition w w' -> I w') ->
  I (firstRender p b) -> I (run up (mount p b) es).
Proof.
  intros Hstep H0. apply run_keeps; [exact Hstep |].
  apply (Hstep (firstRender p b)); [exact H0 | apply mount_transition].
Qed.

(** ** Counting *)

Lemma countIf_app {A} (f : A -> bool) (l1 l2 : list A) :
  countIf f (l1 ++ l2) = (countIf f l1 + countIf f l2)%nat.
Proof.
  induction l1 as [| x l1 IH]; [reflexivity |].
  cbn [app countIf]. rewrite IH. lia.
Qed.

Lemma countIf_delete {A} (f : A -> bool) (l : list A) (n : nat) (x : A) :
  l !! n = Some x ->
  countIf f l = ((if f x then 1 else 0) + countIf f (delete n l))%nat.
Proof.
  revert n. induction l as [| y l IH]; intros n Hn; [done |].
  destruct n as [| n].
  - cbn in Hn. injection Hn as ->. reflexivity.
  - cbn in Hn. cbn [countIf]. change (delete (S n) (y :: l)) with (y :: delete n l).
    cbn [countIf]. rewrite (IH n Hn). lia.
Qed.

Lemma countIf_none {A} (f : A -> bool) (l : list A) (x : A) :
  countIf f l = 0%nat -> x ∈ l -> f x = false.
Proof.
  induction l as [| y l IH]; intros Hc Hin.
  - by apply not_elem_of_nil in Hin.
  - cbn [countIf] in Hc. apply elem_of_cons in Hin as [-> | Hin].
    + destruct (f y); [lia | done].
    + apply IH; [lia | exact Hin].
Qed.

Lemma forallb_elem {A} (f : A -> bool) (l : list A) (x : A) :
  forallb f l = true -> x ∈ l -> f x = true.
Proof.
  intros Hall Hin. apply list_elem_of_In in Hin.
  by apply (proj1 (forallb_forall f l) Hall).
Qed.

(** ** The promo collaborator is called with care *)

Lemma okPromoCall_step w w' :
  forallb okPromoCall (log w) = true -> Transition w w' ->
  forallb okPromoCall (log w') = true.
Proof.
  intros Hw HT. transition_cases HT;
    rewrite ?forallb_app, ?Hw; try reflexivity; try exact Hw.
  cbn [forallb okPromoCall andb].
  match goal with H : blank _ = false |- _ => rewrite H end.
  match goal with H : 0 < _ |- _ => apply Z.ltb_lt in H; rewrite H end.
  reflexivity.
Qed.

(** X1: In every run [validatePromoCode] is only ever called with a code that
    is not blank and with a positive base price. *)
Theorem promo_calls_well_formed up p b es promo courseId basePrice :
  ValidatePromoCode promo courseId basePrice ∈ log (run up (mount p b) es) ->
  blank promo = false /\ 0 < basePrice.
Proof.
  intros Hin.
  assert (Hall : forallb okPromoCall (log (run up (mount p b) es)) = true).
  { apply (run_from_mount_keeps up
             (fun w => forallb okPromoCall (log w) = true));
      [apply okPromoCall_step | reflexivity]. }
  pose proof (forallb_elem _ _ _ Hall Hin) as Hok. cbn in Hok.
  apply andb_true_iff in Hok as [Hb Hp].
  split; [by apply negb_true_iff | by apply Z.ltb_lt].
Qed.

Lemma promo_calls_well_formed_witness :
  let w := run asciiUpperCase (mount props1 emptyBrowser) save20Applied in
  ValidatePromoCode (js "SAVE20") (js "c1") 50000 ∈ log w
  /\ blank (js "SAVE20") = false /\ 0 < 50000.
Proof.
  intros w.
  assert (Hin : ValidatePromoCode (js "SAVE20") (js "c1") 50000 ∈ log w).
  { apply list_elem_of_lookup. exists 1%nat. reflexivity. }
  split; [exact Hin |].
  exact (promo_calls_well_formed asciiUpperCase props1 emptyBrowser
           save20Applied _ _ _ Hin).
Defined.

(** ** One validation at a time *)

(** Brings the counts of the old suspended handlers into the context. *)
Ltac count_pending :=
  repeat match goal with
    | H : pending ?w !! ?n = Some ?p |- _ =>
        pose proof (countIf_delete isAwaitPromo _ _ _ H);
        pose proof (countIf_delete isAwaitProbe _ _ _ H);
        pose proof (countIf_delete isAwaitInitiate _ _ _ H);
        pose proof (countIf_delete isAwaitTimer _ _ _ H);
        clear H
    end;
  rewrite ?countIf_app; cbn [countIf isAwaitPromo isAwaitProbe isAwaitInitiate
    isAwaitTimer isProbe isInitiate isValidate isSetTimeout
    isEnrollmentComplete app] in *.

Lemma oneValidation_step w w' :
  oneValidation w -> Transition w w' -> oneValidation w'.
Proof.
  intros [Hle Hflag] HT. unfold oneValidation.
  transition_cases HT; count_pending; try (split; [lia | intros; try lia; auto]).
  all: try (apply Hflag; lia).
  destruct (countIf isAwaitPromo (pending w)) as [| [| k]] eqn:Hc; try lia.
  rewrite Hflag in * by reflexivity. discriminate.
Qed.

(** X3: In every run at most one promo validation is in flight, and the
    validation flag, which disables the apply button, is up as long as it
    is. *)
Theorem one_validation_in_flight up p b es :
  let w := run up (mount p b) es in
  (countIf isAwaitPromo (pending w) <= 1)%nat
  /\ (forall cl, AwaitPromo cl ∈ pending w ->
                 promoValidating (st w) = true
                 /\ enabled w ClickApply = false).
Proof.
  intros w.
  assert (H : oneValidation w).
  { apply (run_from_mount_keeps up oneValidation);
      [apply oneValidation_step |].
    split; cbn; [lia | discriminate]. }
  destruct H as [Hle Hflag]. split; [exact Hle |].
  intros cl Hin.
  assert (Hone : countIf isAwaitPromo (pending w) = 1%nat).
  { destruct (countIf isAwaitPromo (pending w)) as [| [| k]] eqn:Hc;
      [| reflexivity | lia].
    by pose proof (countIf_none _ _ _ Hc Hin). }
  split; [by apply Hflag |].
  cbn [enabled]. rewrite (Hflag Hone). cbn [orb negb].
  apply andb_false_r.
Qed.

Lemma applyStuck_step k w w' :
  applyStuck k w -> Transition w w' -> applyStuck k w'.
Proof.
  intros (Hflag & Hnone & Hk) HT. unfold applyStuck.
  transition_cases HT; count_pending; try congruence;
    try (repeat split; first [lia | congruence]).
Qed.

(** X4: A rejected call of [validatePromoCode] leaves the validation flag up
    for good: whatever happens afterwards, the apply button stays disabled
    and the promo collaborator is never called again. *)
Theorem rejected_validation_disables_apply up p b es1 n cl t es2 :
  let w1 := run up (mount p b) es1 in
  pending w1 !! n = Some (AwaitPromo cl) ->
  let w2 := run up (dispatch up w1 (Deliver n (GotPromo (PromoThrows t)))) es2 in
  promoValidating (st w2) = true
  /\ enabled w2 ClickApply = false
  /\ countIf isValidate (log w2) = countIf isValidate (log w1).
Proof.
  intros w1 Hp w2.
  assert (H1 : oneValidation w1).
  { apply (run_from_mount_keeps up oneValidation);
      [apply oneValidation_step |].
    split; cbn; [lia | discriminate]. }
  assert (Hstuck : applyStuck (countIf isValidate (log w1))
                     (dispatch up w1 (Deliver n (GotPromo (PromoThrows t))))).
  { destruct H1 as [Hle Hflag].
    pose proof (countIf_delete isAwaitPromo _ _ _ Hp) as Hc. cbn in Hc.
    unfold dispatch, applyStuck. cbn [enabled handle]. unfold deliver.
    rewrite Hp. cbn [handleValidatePromo_resume resume st pending log].
    repeat split; [apply Hflag |]; lia. }
  pose proof (run_keeps up _ (applyStuck_step _) es2 _ Hstuck)
    as (Hflag & _ & Hk).
  fold w2 in Hflag, Hk. repeat split; [exact Hflag | | exact Hk].
  cbn [enabled]. rewrite Hflag. cbn [orb negb]. apply andb_false_r.
Qed.

Lemma rejected_validation_disables_apply_witness :
  let es1 := [Deliver 0 (priceIs 50000); ChangePromo (js "a"); ClickApply] in
  let w1 := run asciiUpperCase (mount props1 emptyBrowser) es1 in
  let w2 := run asciiUpperCase
              (dispatch asciiUpperCase w1
                 (Deliver 0 (GotPromo (PromoThrows ThrownOther))))
              [ChangePromo (js "b"); ClickApply] in
  (exists cl, pending w1 !! 0%nat = Some (AwaitPromo cl))
  /\ promoValidating (st w2) = true
  /\ enabled w2 ClickApply = false.
Proof.
  intros es1 w1 w2. split; [eexists; reflexivity |].
  destruct (rejected_validation_disables_apply asciiUpperCase props1
              emptyBrowser es1 0 _ ThrownOther
              [ChangePromo (js "b"); ClickApply] eq_refl)
    as (Hflag & Hoff & _).
  split; [exact Hflag | exact Hoff].
Defined.

(** ** The books of the payment path *)

Lemma paymentBooks_step w w' :
  paymentBooks w -> Transition w w' -> paymentBooks w'.
Proof.
  intros (Hprobe & Hinit & Htimer) HT. unfold paymentBooks.
  transition_cases HT; count_pending; repeat split; lia.
Qed.

Lemma paymentBooks_run up p b es : paymentBooks (run up (mount p b) es).
Proof.
  apply (run_from_mount_keeps up paymentBooks); [apply paymentBooks_step |].
  repeat split; cbn; lia.
Qed.

(** X9: In every run each call of [initiateEnrollment] was preceded by a
    storage probe of its own: the calls made and the probes still
    unanswered never outnumber the probes started. *)
Theorem initiate_only_after_probe up p b es :
  let w := run up (mount p b) es in
  (countIf isInitiate (log w) + countIf isAwaitProbe (pending w)
   <= countIf isProbe (log w))%nat.
Proof. intros w. apply (paymentBooks_run up p b es). Qed.

(** X10: In every run the caller is told of a completed enrollment once per
    success timer that fired, no timer is ever cancelled, and a timer is
    set at most once per call of [initiateEnrollment] that returned. *)
Theorem completion_notified_once_per_timer up p b es :
  let w := run up (mount p b) es in
  (countIf isEnrollmentComplete (log w) + countIf isAwaitTimer (pending w)
   = countIf isSetTimeout (log w))%nat
  /\ (countIf isSetTimeout (log w) + countIf isAwaitInitiate (pending w)
      <= countIf isInitiate (log w))%nat.
Proof.
  intros w. destruct (paymentBooks_run up p b es) as (_ & Hinit & Htimer).
  split; [exact Htimer | exact Hinit].
Qed.

(** ** Only valid forms are paid for *)

(** A transition keeps the step and the form, or leaves the payment
    screen, or has just validated the form. *)
Lemma dispatch_form up w e :
  let w' := dispatch up w e in
  (step (st w') = step (st w) /\ formData (st w') = formData (st w))
  \/ step (st w') <> payment
  \/ validBasics (formData (st w')) = true.
Proof.
  unfold dispatch. destruct (enabled w e) eqn:Hen; [| by left].
  destruct e as [p | i value checked | value | | | m | | | | | n r];
    cbn [handle].
  - left. by destruct (rerender_state p w) as [-> _].
  - right; left. cbn [enabled] in Hen.
    apply andb_true_iff in Hen as [Hen _].
    apply andb_true_iff in Hen as [_ Hs].
    apply bool_decide_eq_true in Hs. cbn. by rewrite Hs.
  - by left.
  - left. unfold handleValidatePromo. by destruct (negb _).
  - unfold handleProceedToPayment.
    pose proof (validateForm_accepts (render w)
                  (st (withState (setErrorMessage None) w))) as Hacc.
    pose proof (validateForm_writes (render w)
                  (st (withState (setErrorMessage None) w))) as Hwr.
    destruct (validateForm _ _) as [ok s2]. cbn [fst snd] in Hacc, Hwr.
    destruct ok; cbn [negb].
    + destruct (Hacc eq_refl) as [Hvalid ->].
      destruct (_ =? _); [| by right; right].
      left. unfold handlePayment. by destruct (user _).
    + left. by destruct Hwr as [-> | [m ->]].
  - by left.
  - by right; left.
  - left. unfold handlePayment. by destruct (user _).
  - by right; left.
  - unfold handleClose. destruct (bool_decide _); [by right; left | by left].
  - unfold deliver.
    destruct (pending w !! n) as [[| cl | cl u | cl u |] |];
      destruct r as [o | o | o | o |]; try (by left).
    + left. destruct o as [t | r]; cbn [fetchCoursePrice_resume]; [done |].
      by destruct (fetchError r), (data r).
    + left. destruct o as [t | r]; cbn [handleValidatePromo_resume]; [done |].
      by destruct (valid r), (final_price r).
    + right; left. destruct o as [t | [e |]]; cbn [handlePayment_probed];
        [| destruct (bool_decide _) |]; done.
    + destruct o as [t | r]; cbn [handlePayment_initiated];
        [by right; left |].
      destruct (negb (r_success r)); [by right; left |].
      destruct (orNull (r_paymentUrl r)); [| by right; left].
      unfold redirectToProvider. cbn [browser withState resume].
      destruct (setItemThrows (browser w)); [by right; left | by left].
Qed.

Lemma okInitiateCall_valid f uid cid amt ph ev :
  validBasics f = true ->
  okInitiateCall (InitiateEnrollment uid cid amt (email f) (userName f) ph ev)
  = true.
Proof.
  unfold validBasics, okInitiateCall, userName. intros H.
  apply andb_true_iff in H as [H _]. apply andb_true_iff in H as [Hf He].
  rewrite He. cbn [andb]. apply negb_true_iff in Hf.
  assert (Hb : blank (firstName f ++ [32%N] ++ lastName f) = false)
    by (by rewrite blank_app, Hf).
  unfold blank in Hb. by apply negb_false_iff in Hb.
Qed.

Lemma validForms_dispatch up w e : validForms w -> validForms (dispatch up w e).
Proof.
  intros (Hpay & Hprobe & Hinit & Hlog).
  pose proof (dispatch_form up w e) as Hform.
  pose proof (dispatch_transition up w e) as HT.
  cbv zeta in Hform. set (w' := dispatch up w e) in *.
  split; [| split; [| split]].
  - intros Hs. destruct Hform as [[Hst Hfd] | [Hne | Hok]]; [| done | done].
    rewrite Hfd. apply Hpay. congruence.
  - intros cl u Hin. destruct HT;
      match goal with H : pending w' = _ |- _ => rewrite H in Hin end;
      promo_mem; eauto.
    injection Hin as -> ->. cbn [render r_state].
    match goal with H : _ \/ _ |- _ => destruct H as [H | H] end; auto.
  - intros cl u Hin. destruct HT;
      match goal with H : pending w' = _ |- _ => rewrite H in Hin end;
      promo_mem; eauto.
    injection Hin as -> ->.
    match goal with H : pending w !! _ = Some _ |- _ =>
      apply list_elem_of_lookup_2 in H end. eauto.
  - transition_cases HT; rewrite ?forallb_app, ?Hlog; try reflexivity;
      try exact Hlog.
    all: cbn [forallb andb]; rewrite okInitiateCall_valid; [reflexivity |];
      match goal with H : pending _ !! _ = Some _ |- _ =>
        apply list_elem_of_lookup_2 in H end; eauto.
Qed.

Lemma validForms_run up p b es : validForms (run up (mount p b) es).
Proof.
  assert (Hrun : forall w, validForms w -> validForms (run up w es)).
  { induction es as [| e es IH]; intros w Hw; [exact Hw |].
    apply IH. by apply validForms_dispatch. }
  apply Hrun. unfold mount. fold (firstRender p b).
  assert (H0 : validForms (firstRender p b)).
  { repeat split; try done; intros cl u H; by apply not_elem_of_nil in H. }
  unfold fetchEffect. destruct (_ || _); [exact H0 |].
  destruct H0 as (Hpay & Hprobe & Hinit & Hlog).
  repeat split; try done; intros cl u H; cbn in H; promo_mem.
Qed.

(** X8: In every run [initiateEnrollment] is only ever called with a contact
    email that is not blank and a user name that is not empty. *)
Theorem initiate_calls_carry_contact up p b es
  userId courseId amount contactEmail name phone useEversend :
  InitiateEnrollment userId courseId amount contactEmail name phone useEversend
    ∈ log (run up (mount p b) es) ->
  blank contactEmail = false /\ name <> [].
Proof.
  intros Hin.
  destruct (validForms_run up p b es) as (_ & _ & _ & Hlog).
  pose proof (forallb_elem _ _ _ Hlog Hin) as Hok. cbn in Hok.
  apply andb_true_iff in Hok as [He Hn].
  split; [by apply negb_true_iff | by destruct name].
Qed.

(** X7: In every run the payment screen is only ever shown for a form whose
    first name and email are not blank and whose terms are accepted. *)
Theorem payment_screen_has_valid_form up p b es :
  let w := run up (mount p b) es in
  step (st w) = payment ->
  blank (firstName (formData (st w))) = false
  /\ blank (email (formData (st w))) = false
  /\ acceptTerms (formData (st w)) = true.
Proof.
  intros w Hs.
  destruct (validForms_run up p b es) as (Hpay & _).
  specialize (Hpay Hs). unfold validBasics in Hpay.
  apply andb_true_iff in Hpay as [Hpay Ht].
  apply andb_true_iff in Hpay as [Hf He].
  repeat split; [by apply negb_true_iff | by apply negb_true_iff | exact Ht].
Qed.

Lemma initiate_calls_carry_contact_witness :
  let w := run asciiUpperCase (mount props1 emptyBrowser)
             (toPaymentScreen
              ++ [ClickPay; Deliver 0 (GotProbe (ProbeReturns None))]) in
  let call := InitiateEnrollment (js "u1") (js "c1") 50000 (js "ada@x.org")
                (js "Ada Lovelace") (js "+256700") true in
  call ∈ log w /\ blank (js "ada@x.org") = false /\ js "Ada Lovelace" <> [].
Proof.
  intros w call.
  assert (Hin : call ∈ log w).
  { apply list_elem_of_lookup. exists 2%nat. reflexivity. }
  split; [exact Hin |].
  exact (initiate_calls_carry_contact asciiUpperCase props1 emptyBrowser
           _ _ _ _ _ _ _ _ Hin).
Defined.

Lemma payment_screen_has_valid_form_witness :
  let w := run asciiUpperCase (mount props1 emptyBrowser) toPaymentScreen in
  step (st w) = payment
  /\ blank (firstName (formData (st w))) = false
  /\ blank (email (formData (st w))) = false
  /\ acceptTerms (formData (st w)) = true.
Proof.
  intros w. split; [reflexivity |].
  exact (payment_screen_has_valid_form asciiUpperCase props1 emptyBrowser
           toPaymentScreen eq_refl).
Defined.

(** ** The session storage and the window *)

(** A transition leaves the browser alone or writes the record and
    leaves. *)
Lemma dispatch_browser up w e :
  browser (dispatch up w e) = browser w
  \/ exists value url,
       browser (dispatch up w e)
       = {| sessionStorage := <[pendingKey := value]> (sessionStorage (browser w));
            setItemThrows := setItemThrows (browser w);
            location_href := Some url |}.
Proof.
  unfold dispatch. destruct (enabled w e); [| by left].
  destruct e as [p | i value checked | value | | | m | | | | | n r];
    cbn [handle]; try (by left).
  - left. unfold rerender. destruct (_ && _); [done |].
    unfold fetchEffect. by destruct (_ || _).
  - left. unfold handleValidatePromo. by destruct (negb _).
  - left. unfold handleProceedToPayment.
    destruct (validateForm _ _) as [ok s2]. destruct ok; cbn [negb]; [| done].
    destruct (_ =? _); [| done]. unfold handlePayment. by destruct (user _).
  - left. unfold handlePayment. by destruct (user _).
  - left. unfold handleClose. by destruct (bool_decide _).
  - unfold deliver.
    destruct (pending w !! n) as [[| cl | cl u | cl u |] |];
      destruct r as [o | o | o | o |]; try (by left).
    + left. destruct o as [t | r]; cbn [fetchCoursePrice_resume]; [done |].
      by destruct (fetchError r), (data r).
    + left. destruct o as [t | r]; cbn [handleValidatePromo_resume]; [done |].
      by destruct (valid r), (final_price r).
    + left. destruct o as [t | [e |]]; cbn [handlePayment_probed];
        [| destruct (bool_decide _) |]; done.
    + destruct o as [t | r]; cbn [handlePayment_initiated]; [by left |].
      destruct (negb (r_success r)); [by left |].
      destruct (orNull (r_paymentUrl r)) as [url |]; [| by left].
      unfold redirectToProvider. cbn [browser withState resume].
      destruct (setItemThrows (browser w)) eqn:Hthrows; [by left |].
      right. exists (JSON_stringify (pendingEnrollmentRecord cl u r)), url.
      cbn [browser emit withBrowser withState resume sessionStorage
           setItemThrows location_href].
      by rewrite Hthrows.
Qed.

(** X16: No run touches any key of the session storage but the one of the
    pending enrollment, and no run removes that record once it is there. *)
Theorem session_storage_frame up es : forall w,
  let w' := run up w es in
  (forall key, key <> pendingKey ->
               sessionStorage (browser w') !! key
               = sessionStorage (browser w) !! key)
  /\ (is_Some (sessionStorage (browser w) !! pendingKey) ->
      is_Some (sessionStorage (browser w') !! pendingKey))
  /\ setItemThrows (browser w') = setItemThrows (browser w).
Proof.
  induction es as [| e es IH]; intros w; [done |].
  cbn [run fold_left]. fold (run up (dispatch up w e) es).
  destruct (IH (dispatch up w e)) as (Hother & Hkeep & Hthrows).
  destruct (dispatch_browser up w e) as [Hb | (value & url & Hb)];
    rewrite Hb in Hother, Hkeep, Hthrows.
  - done.
  - cbn [sessionStorage setItemThrows] in Hother, Hkeep, Hthrows.
    split; [| split; [| exact Hthrows]].
    + intros key Hkey. rewrite (Hother key Hkey).
      by apply lookup_insert_ne.
    + intros _. apply Hkeep. rewrite lookup_insert_eq. by eexists.
Qed.

(** X17: In every run that starts in a window that has not been sent anywhere,
    once the window has been sent to a payment page the record of the
    pending enrollment is in the session storage. *)
Theorem navigated_implies_record up p b es url :
  location_href b = None ->
  let w := run up (mount p b) es in
  location_href (browser w) = Some url ->
  is_Some (sessionStorage (browser w) !! pendingKey).
Proof.
  intros Hb w Hurl.
  assert (Hrun : forall es' w0, recordBeforeLeaving w0 ->
                                recordBeforeLeaving (run up w0 es')).
  { induction es' as [| e es' IH]; intros w0 H0; [exact H0 |].
    apply IH.
    destruct (dispatch_browser up w0 e) as [Heq | (value & url' & Heq)];
      unfold recordBeforeLeaving; rewrite Heq; [exact H0 |].
    right. cbn [sessionStorage]. rewrite lookup_insert_eq. by eexists. }
  assert (H0 : recordBeforeLeaving (mount p b)).
  { left. unfold mount, fetchEffect. by destruct (_ || _). }
  destruct (Hrun es _ H0) as [Hnone | Hsome]; [| exact Hsome].
  fold w in Hnone. congruence.
Qed.

Lemma navigated_implies_record_witness :
  let es := toPaymentScreen
            ++ [ClickPay; Deliver 0 (GotProbe (ProbeReturns None));
                Deliver 0 (GotInitiate (InitiateReturns redirectE1))] in
  let w := run asciiUpperCase (mount props1 emptyBrowser) es in
  (location_href emptyBrowser = None
   /\ location_href (browser w) = Some (js "https://pay/x"))
  /\ is_Some (sessionStorage (browser w) !! pendingKey).
Proof.
  intros es w.
  assert (Hurl : location_href (browser w) = Some (js "https://pay/x"))
    by reflexivity.
  split; [split; [reflexivity | exact Hurl] |].
  exact (navigated_implies_record asciiUpperCase props1 emptyBrowser es
           (js "https://pay/x") eq_refl Hurl).
Defined.

(** ** When the controls are dead *)

Lemma enabled_inert w e :
  isOpen (props w) = false \/ step (st w) = processing ->
  isUserEvent e = true -> enabled w e = false.
Proof.
  intros [Hclosed | Hproc] He; destruct e; try discriminate He;
    cbn [enabled]; rewrite ?Hclosed, ?Hproc; try reflexivity.
  all: try (rewrite bool_decide_eq_false_2 by discriminate);
    rewrite ?andb_false_r; reflexivity.
Qed.

(** X15: While the modal is hidden, and while the workflow is in the processing
    step, no control does anything: only the parent's renders and the
    collaborators' answers move the component. *)
Theorem controls_inert up w es :
  isOpen (props w) = false \/ step (st w) = processing ->
  forallb isUserEvent es = true ->
  run up w es = w.
Proof.
  intros Hw. induction es as [| e es IH]; [done |].
  cbn [forallb]. intros H. apply andb_true_iff in H as [He Hes].
  cbn [run fold_left]. unfold dispatch at 2.
  rewrite (enabled_inert w e Hw He). by apply IH.
Qed.

Lemma controls_inert_witness :
  let w := run asciiUpperCase (mount props1 emptyBrowser)
             (toPaymentScreen
              ++ [ClickPay; Deliver 0 (GotProbe (ProbeReturns None));
                  Deliver 0 (GotInitiate (InitiateReturns redirectE1))]) in
  let es := [ClickClose; ClickBack; ClickTryAgain; Submit; ClickPay] in
  (step (st w) = processing /\ forallb isUserEvent es = true)
  /\ run asciiUpperCase w es = w.
Proof.
  intros w es.
  assert (Hs : step (st w) = processing) by reflexivity.
  split; [split; [exact Hs | reflexivity] |].
  exact (controls_inert asciiUpperCase w es (or_intror Hs) eq_refl).
Defined.

(** ** Submitting the details form *)

Lemma validateForm_firstFailure cl s :
  validateForm cl s
  = outcome (firstFailure (rules_trimmed (coursePrice (r_state cl)))
               (formData (r_state cl))) s.
Proof.
  unfold validateForm, firstFailure, rules_trimmed, blank.
  cbn [find fst snd]. rewrite !negb_involutive.
  destruct (truthy (trim (firstName (formData (r_state cl))))); [| reflexivity].
  destruct (truthy (trim (email (formData (r_state cl))))); [| reflexivity].
  destruct (0 <? coursePrice (r_state cl)); cbn [negb andb orb];
    destruct (truthy (trim (phoneNumber (formData (r_state cl))))); cbn [negb];
    destruct (acceptTerms (formData (r_state cl))); reflexivity.
Qed.

(** X6: What a submission of the details form does.  A form that fails a rule
    stays on the details step with the message of the first failed rule
    and reaches no collaborator; a valid form for a course that is not
    free goes to the payment screen, again without reaching a
    collaborator; a valid form for a free course starts the payment at
    once when a user is signed in, and otherwise stays on the details step
    with the authentication message.  An earlier error message is
    replaced in every case. *)
Theorem submit_outcomes up w :
  isOpen (props w) = true -> step (st w) = details ->
  let w' := dispatch up w Submit in
  match firstFailure (rules_trimmed (coursePrice (st w))) (formData (st w)) with
  | Some e =>
      st w' = setErrorMessage (Some (messageOf e)) (st w)
      /\ pending w' = pending w /\ log w' = log w
  | None =>
      if coursePrice (st w) =? 0 then
        match user (props w) with
        | Some u =>
            st w' = setErrorMessage None (st w)
            /\ pending w' = pending w ++ [AwaitProbe (render w) u]
            /\ log w' = log w ++ [ProbeEnrollments]
        | None =>
            st w' = setErrorMessage (Some (js "User not authenticated")) (st w)
            /\ pending w' = pending w /\ log w' = log w
        end
      else
        st w' = setStep payment (setErrorMessage None (st w))
        /\ pending w' = pending w /\ log w' = log w
  end.
Proof.
  intros Ho Hs w'. subst w'. unfold dispatch. cbn [enabled].
  rewrite Ho, Hs. rewrite bool_decide_eq_true_2 by reflexivity.
  cbn [andb handle]. unfold handleProceedToPayment.
  rewrite validateForm_firstFailure. cbn [render r_state r_props].
  destruct (firstFailure _ _) as [e |]; cbn [outcome negb].
  - repeat split.
  - destruct (coursePrice (st w) =? 0); [| repeat split].
    unfold handlePayment.
    change (user (r_props (render w))) with (user (props w)).
    destruct (user (props w)); repeat split.
Qed.

Lemma submit_outcomes_witness :
  let w := run asciiUpperCase (mount props1 emptyBrowser)
             ([Deliver 0 (priceIs 50000)] ++ fillForm) in
  let w' := dispatch asciiUpperCase w Submit in
  (isOpen (props w) = true /\ step (st w) = details)
  /\ st w' = setStep payment (setErrorMessage None (st w))
  /\ log w' = log w.
Proof.
  intros w w'. split; [split; reflexivity |].
  pose proof (submit_outcomes asciiUpperCase w eq_refl eq_refl) as H.
  cbv zeta in H.
  change (firstFailure (rules_trimmed (coursePrice (st w))) (formData (st w)))
    with (@None FormError) in H.
  change (coursePrice (st w) =? 0) with false in H.
  destruct H as (Hst & _ & Hlog). split; [exact Hst | exact Hlog].
Defined.

(** ** The answers of [initiateEnrollment] *)

(** No control of the modal touches the browser by itself. *)
Lemma dispatch_user_browser up w e :
  isUserEvent e = true -> browser (dispatch up w e) = browser w.
Proof.
  intros He. unfold dispatch. destruct (enabled w e); [| done].
  destruct e as [p | i value checked | value | | | m | | | | | n r];
    try discriminate He; cbn [handle]; try done.
  - unfold handleValidatePromo. by destruct (negb _).
  - unfold handleProceedToPayment.
    destruct (validateForm _ _) as [ok s2]. destruct ok; cbn [negb]; [| done].
    destruct (_ =? _); [| done]. unfold handlePayment. by destruct (user _).
  - unfold handlePayment. by destruct (user _).
  - unfold handleClose. by destruct (bool_decide _).
Qed.

Lemma submit_free_signed_in up w u :
  isOpen (props w) = true -> step (st w) = details ->
  coursePrice (st w) = 0 ->
  firstFailure (rules_trimmed 0) (formData (st w)) = None ->
  user (props w) = Some u ->
  let w1 := dispatch up w Submit in
  st w1 = setErrorMessage None (st w)
  /\ pending w1 = pending w ++ [AwaitProbe (render w) u]
  /\ log w1 = log w ++ [ProbeEnrollments].
Proof.
  intros Ho Hs Hfree Hvalid Hu w1. subst w1. unfold dispatch. cbn [enabled].
  rewrite Ho, Hs. rewrite bool_decide_eq_true_2 by reflexivity.
  cbn [andb handle]. unfold handleProceedToPayment.
  rewrite validateForm_firstFailure. cbn [render r_state r_props].
  rewrite Hfree, Hvalid. cbn [outcome negb Z.eqb].
  unfold handlePayment.
  change (user (r_props (render w))) with (user (props w)). rewrite Hu.
  repeat split.
Qed.

(** X12: The free-course fast path: a valid form for a free course, submitted
    by a signed-in user, goes from the details step to processing when the
    probe has answered and to success when [initiateEnrollment] returns a
    success without a payment URL; the payment screen is never shown, the
    returned enrollment id is kept, nothing is written to the browser, and
    the timer that will notify the caller is set. *)
Theorem free_course_fast_path_general up w u o r :
  isOpen (props w) = true -> step (st w) = details ->
  coursePrice (st w) = 0 ->
  firstFailure (rules_trimmed 0) (formData (st w)) = None ->
  user (props w) = Some u ->
  reportsNotFound o = false ->
  r_success r = true -> orNull (r_paymentUrl r) = None ->
  let w1 := dispatch up w Submit in
  let w2 := deliver (length (pending w)) (GotProbe o) w1 in
  let w3 := deliver (length (pending w)) (GotInitiate (InitiateReturns r)) w2 in
  (step (st w1) = details /\ step (st w2) = processing
   /\ step (st w3) = success)
  /\ enrollmentId (st w3) = orNull (r_enrollmentId r)
  /\ errorMessage (st w3) = None
  /\ browser w3 = browser w
  /\ pending w3 = pending w ++ [AwaitTimer]
  /\ last (log w2)
     = Some (InitiateEnrollment (user_id u) (course_id (course (props w)))
               (finalPrice (st w)) (email (formData (st w)))
               (userName (formData (st w))) (phoneNumber (formData (st w)))
               (bool_decide (paymentMethod (st w) = eversend)))
  /\ log w3 = log w2 ++ [SetTimeout 2000].
Proof.
  intros Ho Hs Hfree Hvalid Hu Hprobe Hsucc Hurl w1 w2 w3.
  destruct (submit_free_signed_in up w u Ho Hs Hfree Hvalid Hu)
    as (Hst1 & Hp1 & Hl1).
  fold w1 in Hst1, Hp1, Hl1.
  assert (H2 : exists w0, w2 = startProcessing (render w) u w0
                          /\ pending w0 = pending w /\ browser w0 = browser w1
                          /\ st w0 = st w1).
  { subst w2. unfold deliver. rewrite Hp1, lookup_suspended.
    destruct (probed_passes (render w) u o (resume (length (pending w)) w1)
                Hprobe) as (w0 & -> & Hp0 & Hb0 & Hs0 & _).
    exists w0. repeat split; try done.
    rewrite Hp0. cbn [pending resume]. rewrite Hp1. apply delete_suspended. }
  destruct H2 as (w0 & Hw2 & Hp0 & Hb0 & Hs0).
  assert (Hb1 : browser w1 = browser w)
    by (by apply dispatch_user_browser).
  subst w3. rewrite (deliver_initiate (length (pending w)) (render w) u).
  2:{ rewrite Hw2. cbn [pending startProcessing suspend emit withState].
      rewrite Hp0. apply lookup_suspended. }
  unfold handlePayment_initiated. rewrite Hsucc, Hurl. cbn [negb].
  rewrite Hw2.
  cbn [st step enrollmentId errorMessage browser pending log withState suspend
       emit resume startProcessing setStep setEnrollmentId].
  rewrite Hp0, delete_suspended, Hs0, Hst1, Hb0, Hb1.
  repeat split; try reflexivity.
  - exact Hs.
  - by rewrite last_snoc.
Qed.

Lemma free_course_fast_path_general_witness :
  let w := run asciiUpperCase (mount props1 emptyBrowser)
             [Deliver 0 priceIsNull; Change In_acceptTerms [] true] in
  let w3 := deliver (length (pending w))
              (GotInitiate (InitiateReturns completedE9))
              (deliver (length (pending w)) (GotProbe (ProbeReturns None))
                 (dispatch asciiUpperCase w Submit)) in
  (isOpen (props w) = true /\ step (st w) = details
   /\ coursePrice (st w) = 0
   /\ firstFailure (rules_trimmed 0) (formData (st w)) = None
   /\ user (props w) = Some user1)
  /\ step (st w3) = success
  /\ enrollmentId (st w3) = Some (js "E9").
Proof.
  intros w w3. split; [repeat split |].
  destruct (free_course_fast_path_general asciiUpperCase w user1
              (ProbeReturns None) completedE9
              eq_refl eq_refl eq_refl eq_refl eq_refl eq_refl eq_refl eq_refl)
    as ((_ & _ & Hstep) & Hid & _).
  split; [exact Hstep | exact Hid].
Defined.

(** X13: An enrollment that cannot be initiated: when [initiateEnrollment]
    returns without success the workflow goes to the error step with the
    returned error, or with a fixed message when there is none or it is
    empty, so the error screen always has a message to show; nothing is
    written to the browser, no timer is set, and the enrollment id is left
    as it was. *)
Theorem failed_initiation_shows_message n cl u r w :
  pending w !! n = Some (AwaitInitiate cl u) ->
  r_success r = false ->
  let w' := deliver n (GotInitiate (InitiateReturns r)) w in
  step (st w') = error
  /\ errorMessage (st w')
     = Some (orString (r_error r) (js "Payment initialization failed"))
  /\ (isOpen (props w) = true ->
      exists m, shownError w' = Some m /\ m <> [])
  /\ enrollmentId (st w') = enrollmentId (st w)
  /\ browser w' = browser w /\ log w' = log w
  /\ pending w' = delete n (pending w).
Proof.
  intros Hp Hfail w'. subst w'. rewrite (deliver_initiate n cl u) by exact Hp.
  unfold handlePayment_initiated. rewrite Hfail. cbn [negb].
  repeat split.
  intros Ho. unfold shownError. cbn [props withState resume st step setStep].
  rewrite Ho. cbn [errorMessage setErrorMessage orNull].
  exists (orString (r_error r) (js "Payment initialization failed")).
  unfold orString. destruct (r_error r) as [[| c m] |]; by cbn.
Qed.

Lemma failed_initiation_shows_message_witness :
  let w0 := firstRender props1 emptyBrowser in
  let w := startProcessing (render w0) user1 w0 in
  let r := {| r_success := false; r_enrollmentId := None;
              r_paymentUrl := None; r_error := Some [] |} in
  let w' := deliver 0 (GotInitiate (InitiateReturns r)) w in
  pending w !! 0%nat = Some (AwaitInitiate (render w0) user1)
  /\ step (st w') = error
  /\ errorMessage (st w') = Some (js "Payment initialization failed").
Proof.
  intros w0 w r w'. split; [reflexivity |].
  destruct (failed_initiation_shows_message 0 (render w0) user1 r w
              eq_refl eq_refl) as (Hstep & Hmsg & _).
  split; [exact Hstep | exact Hmsg].
Defined.


(** X5: The answer of [validatePromoCode], as the promo widget shows it: a
    valid result with a final price clears the promo error and applies the
    discount; every other result, a valid one without a final price
    included, removes the discount and shows the returned error, or a fixed
    message when there is none or it is empty; both take the validation
    flag down and touch neither the step, the form nor the error message of
    the workflow. *)
Theorem promo_result_message n cl r w :
  pending w !! n = Some (AwaitPromo cl) ->
  let w' := deliver n (GotPromo (PromoReturns r)) w in
  promoValidating (st w') = false
  /\ step (st w') = step (st w) /\ formData (st w') = formData (st w)
  /\ errorMessage (st w') = errorMessage (st w)
  /\ promoCode (st w') = promoCode (st w)
  /\ log w' = log w /\ pending w' = delete n (pending w)
  /\ (if valid r && bool_decide (is_Some (final_price r)) then
        promoError (st w') = None /\ is_Some (promoDiscount (st w'))
        /\ promoDiscount (st w')
           = Some {| percentage := discount_percentage r;
                     amount := discount_amount r |}
        /\ final_price r = Some (finalPrice (st w'))
      else
        promoDiscount (st w') = None
        /\ (exists m, promoError (st w') = Some m /\ m <> []
                      /\ (forall m', r.(promo_error) = Some m' -> m' <> [] ->
                                     m = m'))
        /\ promoError (st w')
           = Some (match promo_error r with
                   | Some (c :: m) => c :: m
                   | Some [] | None => js "Invalid promo code"
                   end)
        /\ finalPrice (st w') = coursePrice (r_state cl)).
Proof.
  intros Hp w'. subst w'. rewrite (deliver_promo n cl) by exact Hp.
  cbn [handleValidatePromo_resume].
  destruct (valid r), (final_price r) as [fp |]; cbn [andb];
    rewrite ?bool_decide_eq_true_2 by (by eexists);
    rewrite ?bool_decide_eq_false_2 by (by intros [? ?]);
    repeat split; try (by eexists);
    try (by destruct (promo_error r) as [[| c m] |]).
  all: exists (orString (promo_error r) (js "Invalid promo code"));
    split; [reflexivity |]; unfold orString;
    destruct (promo_error r) as [[| c m] |]; cbn;
    (split; [done |]); intros m' Hm' Hne; congruence.
Qed.

Lemma promo_result_message_witness :
  let w := run asciiUpperCase (mount props1 emptyBrowser)
             [Deliver 0 (priceIs 50000); ChangePromo (js "a"); ClickApply] in
  let r := {| valid := true; final_price := None;
              discount_percentage := Some 20; discount_amount := None;
              promo_error := Some [] |} in
  let w' := deliver 0 (GotPromo (PromoReturns r)) w in
  (exists cl, pending w !! 0%nat = Some (AwaitPromo cl))
  /\ promoValidating (st w') = false
  /\ promoDiscount (st w') = None
  /\ promoError (st w') = Some (js "Invalid promo code")
  /\ finalPrice (st w') = 50000.
Proof.
  intros w r w'. split; [eexists; reflexivity |].
  destruct (promo_result_message 0 _ r w eq_refl)
    as (Hflag & _ & _ & _ & _ & _ & _ & Hres).
  cbv zeta in Hres.
  change (valid r && bool_decide (is_Some (final_price r))) with false in Hres.
  destruct Hres as (Hnone & _ & Hmsg & Hprice).
  split; [exact Hflag |]. split; [exact Hnone |].
  split; [exact Hmsg | exact Hprice].
Defined.

(** ** Leaving the error screen and the payment screen *)

(** X18: "Try Again" and "Back" only change the step: the form, the error
    message and the enrollment id stay, nothing reaches a collaborator, and
    after "Try Again" the details form shows, inline, the very error the
    error screen was showing. *)
Theorem retry_and_back_keep_everything up w e :
  e = ClickTryAgain \/ e = ClickBack ->
  let w' := dispatch up w e in
  (st w' = st w \/ st w' = setStep details (st w))
  /\ formData (st w') = formData (st w)
  /\ errorMessage (st w') = errorMessage (st w)
  /\ enrollmentId (st w') = enrollmentId (st w)
  /\ pending w' = pending w /\ log w' = log w /\ browser w' = browser w
  /\ (e = ClickTryAgain -> isOpen (props w) = true -> step (st w) = error ->
      step (st w') = details /\ shownError w' = shownError w).
Proof.
  intros He w'. subst w'. unfold dispatch.
  destruct (enabled w e) eqn:Hen.
  - destruct He as [-> | ->]; cbn [handle].
    + split; [by right |]. do 6 (split; [reflexivity |]).
      intros _ Ho Hs. split; [reflexivity |].
      unfold shownError. cbn [props withState st step setStep errorMessage].
      by rewrite Hs.
    + split; [by right |]. do 6 (split; [reflexivity |]). discriminate.
  - split; [by left |]. do 6 (split; [reflexivity |]).
    intros -> Ho Hs. cbn [enabled] in Hen. rewrite Ho, Hs in Hen.
    by rewrite bool_decide_eq_true_2 in Hen.
Qed.

Lemma retry_and_back_keep_everything_witness :
  let w := run asciiUpperCase (mount props1 emptyBrowser)
             (toPaymentScreen ++ [ClickPay; Deliver 0 (GotProbe notFound)]) in
  let w' := dispatch asciiUpperCase w ClickTryAgain in
  (isOpen (props w) = true /\ step (st w) = error)
  /\ step (st w') = details
  /\ shownError w' = Some setupRequiredMessage.
Proof.
  intros w w'. split; [split; reflexivity |].
  destruct (retry_and_back_keep_everything asciiUpperCase w ClickTryAgain
              (or_introl eq_refl)) as (_ & _ & _ & _ & _ & _ & _ & H).
  destruct (H eq_refl eq_refl eq_refl) as [Hstep Hshown].
  split; [exact Hstep |]. fold w' in Hshown. by rewrite Hshown.
Defined.

(** ** The price query *)

(** A render asks the catalog for the price exactly when the modal is
    shown for a course with an id and either its visibility or the course
    id changed with this render; a render that only brings another user,
    profile or loading flag asks nothing, and no render touches the state
    of the component. *)
Theorem price_query_guard p w :
  let w' := rerender p w in
  st w' = st w /\ props w' = p /\ browser w' = browser w
  /\ (if isOpen p && truthy (course_id (course p))
         && negb (bool_decide (isOpen p = isOpen (props w))
                  && bool_decide (course_id (course p)
                                  = course_id (course (props w))))
      then pending w' = pending w ++ [AwaitPrice]
           /\ log w' = log w ++ [QueryCoursePrice (course_id (course p))]
      else pending w' = pending w /\ log w' = log w).
Proof.
  intros w'. subst w'. unfold rerender, fetchEffect.
  cbn [props withProps].
  destruct (bool_decide (isOpen p = isOpen (props w))
            && bool_decide (course_id (course p) = course_id (course (props w))));
    cbn [negb]; rewrite ?andb_false_r, ?andb_true_r.
  - repeat split.
  - destruct (isOpen p), (truthy (course_id (course p))); repeat split.
Qed.

Lemma okQuery_step w w' :
  forallb okQuery (log w) = true -> Transition w w' ->
  forallb okQuery (log w') = true.
Proof.
  intros Hw HT. transition_cases HT;
    rewrite ?forallb_app, ?Hw; try reflexivity; try exact Hw.
  cbn [forallb okQuery andb].
  match goal with H : course_id _ <> [] |- _ =>
    destruct (course_id (course (props w'))); [by destruct H | reflexivity] end.
Qed.

Ltac query_leaf :=
  cbn [log withState withBrowser withProps emit suspend resume];
  rewrite ?countIf_app; cbn [countIf isQuery]; lia.

(** Only a render makes the component ask for the price. *)
Lemma dispatch_no_query up w e :
  isRerender e = false ->
  countIf isQuery (log (dispatch up w e)) = countIf isQuery (log w).
Proof.
  intros He. unfold dispatch. destruct (enabled w e); [| done].
  destruct e as [p | i value checked | value | | | m | | | | | n r];
    try discriminate He; cbn [handle]; try done.
  - unfold handleValidatePromo. destruct (negb _); query_leaf.
  - unfold handleProceedToPayment.
    destruct (validateForm _ _) as [ok s2]. destruct ok; cbn [negb]; [| done].
    destruct (_ =? _); [| done]. unfold handlePayment.
    destruct (user _); query_leaf.
  - unfold handlePayment. destruct (user _); query_leaf.
  - unfold handleClose. destruct (bool_decide _); query_leaf.
  - unfold deliver.
    destruct (pending w !! n) as [[| cl | cl u | cl u |] |];
      destruct r as [o | o | o | o |]; try done.
    + destruct o as [t | r]; cbn [fetchCoursePrice_resume]; [query_leaf |].
      by destruct (fetchError r), (data r).
    + destruct o as [t | r]; cbn [handleValidatePromo_resume]; [done |].
      by destruct (valid r), (final_price r).
    + destruct o as [t | [e |]]; cbn [handlePayment_probed];
        [| destruct (bool_decide _) |]; unfold startProcessing; query_leaf.
    + destruct o as [t | r]; cbn [handlePayment_initiated]; [done |].
      destruct (negb (r_success r)); [done |].
      destruct (orNull (r_paymentUrl r)) as [url |]; [| query_leaf].
      unfold redirectToProvider. cbn [browser withState resume].
      destruct (setItemThrows (browser w)); [done | query_leaf].
    + unfold successTimer. query_leaf.
Qed.

Lemma dispatch_query_count up w e :
  (countIf isQuery (log (dispatch up w e))
   <= countIf isQuery (log w) + (if isRerender e then 1 else 0))%nat.
Proof.
  destruct (isRerender e) eqn:He.
  - pose proof (dispatch_transition up w e) as HT.
    transition_cases HT; rewrite ?countIf_app; cbn [countIf isQuery]; lia.
  - rewrite (dispatch_no_query up w e He). lia.
Qed.

(** X19: In every run the catalog is asked for the price at most once for the
    first render and once for every later render, never by a control or by
    an answer of a collaborator, and only ever for a course whose id is not
    empty. *)
Theorem price_queries_follow_renders up p b es :
  let w := run up (mount p b) es in
  (countIf isQuery (log w) <= 1 + countIf isRerender es)%nat
  /\ (forall courseId, QueryCoursePrice courseId ∈ log w -> courseId <> []).
Proof.
  intros w. split.
  - assert (Hrun : forall es' w0,
              (countIf isQuery (log (run up w0 es'))
               <= countIf isQuery (log w0) + countIf isRerender es')%nat).
    { induction es' as [| e es' IH]; intros w0; [cbn; lia |].
      cbn [run fold_left countIf]. fold (run up (dispatch up w0 e) es').
      pose proof (IH (dispatch up w0 e)). pose proof (dispatch_query_count up w0 e).
      lia. }
    pose proof (Hrun es (mount p b)) as H. fold w in H.
    assert (H0 : (countIf isQuery (log (mount p b)) <= 1)%nat).
    { unfold mount, fetchEffect. destruct (_ || _); cbn; lia. }
    lia.
  - intros courseId Hin.
    assert (Hall : forallb okQuery (log w) = true).
    { apply (run_from_mount_keeps up (fun w => forallb okQuery (log w) = true));
        [apply okQuery_step | reflexivity]. }
    pose proof (forallb_elem _ _ _ Hall Hin) as Hok. cbn in Hok.
    by destruct courseId.
Qed.

(** ** Typing into the form *)

(** X20: The input handler writes the one field it is named for: a second
    change of the same field replaces the first, changes of different
    fields can be made in either order, the checkbox takes its checked flag
    and the text fields their value, and nothing but the form is
    touched. *)
Theorem input_changes_compose n m v v' c c' w :
  handleInputChange n v c (handleInputChange n v' c' w)
  = handleInputChange n v c w
  /\ (n <> m ->
      handleInputChange n v c (handleInputChange m v' c' w)
      = handleInputChange m v' c' (handleInputChange n v c w))
  /\ (if isCheckbox n
      then handleInputChange n v c w = handleInputChange n v' c w
      else handleInputChange n v c w = handleInputChange n v c' w)
  /\ setFormData (formData (st w)) (st (handleInputChange n v c w)) = st w
  /\ pending (handleInputChange n v c w) = pending w
  /\ log (handleInputChange n v c w) = log w
  /\ (let f := formData (st w) in
      let f' := formData (st (handleInputChange n v c w)) in
      firstName f' = match n with In_firstName => v | _ => firstName f end
      /\ lastName f' = match n with In_lastName => v | _ => lastName f end
      /\ email f' = match n with In_email => v | _ => email f end
      /\ phoneNumber f'
         = match n with In_phoneNumber => v | _ => phoneNumber f end
      /\ acceptTerms f'
         = match n with In_acceptTerms => c | _ => acceptTerms f end).
Proof.
  repeat split; try (by destruct n).
  - intros Hne. destruct n, m; try reflexivity; by destruct Hne.
  - unfold handleInputChange. cbn [st withState]. by destruct (st w).
Qed.

Lemma input_changes_compose_witness :
  let w := run asciiUpperCase (mount props1 emptyBrowser)
             [Deliver 0 (priceIs 50000)] in
  let w1 := handleInputChange In_phoneNumber (js "+256700") true w in
  let w2 := handleInputChange In_acceptTerms (js "on") true w1 in
  In_acceptTerms <> In_phoneNumber
  /\ phoneNumber (formData (st w2)) = js "+256700"
  /\ acceptTerms (formData (st w2)) = true
  /\ firstName (formData (st w2)) = js "Ada"
  /\ w2 = handleInputChange In_phoneNumber (js "+256700") true
            (handleInputChange In_acceptTerms (js "on") true w).
Proof.
  intros w w1 w2.
  assert (Hne : In_acceptTerms <> In_phoneNumber) by discriminate.
  split; [exact Hne |].
  destruct (input_changes_compose In_acceptTerms In_phoneNumber (js "on")
              (js "+256700") true true w)
    as (_ & Hcomm & _).
  destruct (input_changes_compose In_acceptTerms In_phoneNumber (js "on")
              (js "+256700") true true w1)
    as (_ & _ & _ & _ & _ & _ & Hfields).
  cbv zeta in Hfields. destruct Hfields as (Hfirst & _ & _ & Hphone & Hterms).
  split; [exact Hphone |]. split; [exact Hterms |].
  split; [exact Hfirst | exact (Hcomm Hne)].
Defined.

(** ** Names *)

Lemma split_space_head a rest :
  spaceFree a = true -> split_space (a ++ 32%N :: rest) = a :: split_space rest.
Proof.
  induction a as [| c a IH]; cbn [spaceFree forallb app split_space].
  - reflexivity.
  - intros H. apply andb_true_iff in H as [Hc Ha].
    apply negb_true_iff in Hc. rewrite Hc. by rewrite (IH Ha).
Qed.

Lemma split_space_single a : spaceFree a = true -> split_space a = [a].
Proof.
  induction a as [| c a IH]; cbn [spaceFree forallb split_space].
  - reflexivity.
  - intros H. apply andb_true_iff in H as [Hc Ha].
    apply negb_true_iff in Hc. rewrite Hc. by rewrite (IH Ha).
Qed.

Lemma default_names pr a b tail :
  name pr = Some (a ++ 32%N :: b ++ tail) ->
  spaceFree a = true -> spaceFree b = true ->
  tail = [] \/ (exists rest, tail = 32%N :: rest) ->
  firstName (defaultFormData (Some pr)) = a
  /\ lastName (defaultFormData (Some pr)) = b.
Proof.
  intros Hn Ha Hb Htail. unfold defaultFormData, profileNameSegments.
  rewrite Hn, (split_space_head a _ Ha).
  destruct Htail as [-> | [rest ->]].
  - rewrite app_nil_r, (split_space_single b Hb). done.
  - rewrite (split_space_head b _ Hb). done.
Qed.

(** X21: How the form defaults split the name of the profile: a name without a
    space becomes the first name and leaves the last name empty; otherwise
    the first name is what stands before the first space and the last name
    what stands between the first and the second space, so that a third
    part of the name is dropped. *)
Theorem profile_name_split pr :
  (forall a, name pr = Some a -> spaceFree a = true ->
             firstName (defaultFormData (Some pr)) = a
             /\ lastName (defaultFormData (Some pr)) = [])
  /\ (forall a b tail,
        name pr = Some (a ++ 32%N :: b ++ tail) ->
        spaceFree a = true -> spaceFree b = true ->
        tail = [] \/ (exists rest, tail = 32%N :: rest) ->
        firstName (defaultFormData (Some pr)) = a
        /\ lastName (defaultFormData (Some pr)) = b).
Proof.
  split.
  - intros a Hn Ha. unfold defaultFormData, profileNameSegments.
    rewrite Hn, (split_space_single a Ha). done.
  - intros a b tail Hn Ha Hb Htail. by apply default_names with tail.
Qed.

Lemma profile_name_split_witness :
  (name profile3 = Some (js "Ada" ++ 32%N :: js "King" ++ 32%N :: js "Lovelace")
   /\ spaceFree (js "Ada") = true /\ spaceFree (js "King") = true)
  /\ firstName (defaultFormData (Some profile3)) = js "Ada"
  /\ lastName (defaultFormData (Some profile3)) = js "King".
Proof.
  split; [repeat split |].
  apply (proj2 (profile_name_split profile3) (js "Ada") (js "King")
           (32%N :: js "Lovelace")); try reflexivity.
  right. by eexists.
Defined.

Lemma solid_spaceFree a : solid a = true -> spaceFree a = true.
Proof.
  unfold solid, spaceFree. induction a as [| c a IH]; [done |].
  cbn [forallb]. intros H. apply andb_true_iff in H as [Hc Ha].
  rewrite (IH Ha), andb_true_r.
  destruct (N.eqb_spec c 32) as [-> | Hne]; [discriminate Hc | reflexivity].
Qed.

Lemma trimStart_solid s t :
  solid s = true -> s <> [] -> trimStart (s ++ t) = s ++ t.
Proof.
  destruct s as [| c s]; [done |]. unfold solid. cbn [forallb app trimStart].
  intros H _. apply andb_true_iff in H as [Hc _].
  apply negb_true_iff in Hc. by rewrite Hc.
Qed.

Lemma solid_rev s : solid (rev s) = solid s.
Proof. apply forallb_rev. Qed.

(** Trimming leaves a string alone that begins and ends with a solid
    word. *)
Lemma trim_between_solid a m b :
  solid a = true -> a <> [] -> solid b = true -> b <> [] ->
  trim (a ++ m ++ b) = a ++ m ++ b.
Proof.
  intros Ha Ha0 Hb Hb0. unfold trim.
  rewrite (trimStart_solid a _ Ha Ha0). unfold trimEnd.
  rewrite !rev_app_distr, <- app_assoc.
  rewrite trimStart_solid.
  - by rewrite !rev_app_distr, !rev_involutive, <- app_assoc.
  - by rewrite solid_rev.
  - intros H. apply (f_equal (@rev N)) in H. rewrite rev_involutive in H.
    by apply Hb0.
Qed.

(** X23: The name handed to the payment provider: it carries no whitespace at
    its ends, it is empty only when both names are blank, and a blank last
    name leaves no space behind the first name. *)
Theorem userName_trimmed f :
  trim (userName f) = userName f
  /\ truthy (userName f) = negb (blank (firstName f) && blank (lastName f))
  /\ (blank (lastName f) = true -> userName f = trim (firstName f)).
Proof.
  unfold userName. split; [apply trim_idem | split].
  - assert (H : blank (firstName f ++ [32%N] ++ lastName f)
                = blank (firstName f) && blank (lastName f))
      by (by rewrite !blank_app).
    unfold blank at 1 in H. rewrite <- H. by rewrite negb_involutive.
  - intros Hl. apply trim_app_blank. rewrite <- blank_forallb.
    by rewrite blank_app, Hl.
Qed.

Lemma userName_trimmed_witness :
  blank (lastName firstNameOnly) = true
  /\ userName firstNameOnly = js "Ada".
Proof.
  split; [reflexivity |].
  destruct (userName_trimmed firstNameOnly) as (_ & _ & H).
  rewrite (H eq_refl). reflexivity.
Defined.

(** X22: A profile name of two words comes back whole: the defaults split it
    into first and last name, and the name handed to the payment provider
    for the untouched form is the name of the profile again. *)
Theorem profile_name_round_trip pr a b :
  name pr = Some (a ++ [32%N] ++ b) ->
  solid a = true -> a <> [] -> solid b = true -> b <> [] ->
  firstName (defaultFormData (Some pr)) = a
  /\ lastName (defaultFormData (Some pr)) = b
  /\ userName (defaultFormData (Some pr)) = a ++ [32%N] ++ b.
Proof.
  intros Hn Ha Ha0 Hb Hb0.
  destruct (default_names pr a b []) as [Hfirst Hlast];
    try (by apply solid_spaceFree); try (by left).
  { by rewrite app_nil_r. }
  split; [exact Hfirst | split; [exact Hlast |]].
  unfold userName. rewrite Hfirst, Hlast.
  by apply trim_between_solid.
Qed.

Lemma profile_name_round_trip_witness :
  (name profile1 = Some (js "Ada" ++ [32%N] ++ js "Lovelace")
   /\ solid (js "Ada") = true /\ js "Ada" <> []
   /\ solid (js "Lovelace") = true /\ js "Lovelace" <> [])
  /\ userName (defaultFormData (Some profile1)) = js "Ada Lovelace".
Proof.
  split; [repeat split; discriminate |].
  exact (proj2 (proj2 (profile_name_round_trip profile1 (js "Ada")
                         (js "Lovelace") eq_refl eq_refl
                         ltac:(discriminate) eq_refl ltac:(discriminate)))).
Defined.

(** ** Nothing in flight is cancelled *)

Lemma dispatch_keeps_pending up w e :
  isAnswer e = false ->
  exists added, pending (dispatch up w e) = pending w ++ added.
Proof.
  intros He. unfold dispatch.
  destruct (enabled w e); [| exists []; by rewrite app_nil_r].
  destruct e as [p | i value checked | value | | | m | | | | | n r];
    try discriminate He; cbn [handle];
    try (exists []; by rewrite app_nil_r).
  - unfold rerender. destruct (_ && _); [exists []; by rewrite app_nil_r |].
    unfold fetchEffect. destruct (_ || _); [exists []; by rewrite app_nil_r |].
    by eexists.
  - unfold handleValidatePromo.
    destruct (negb _); [exists []; by rewrite app_nil_r | by eexists].
  - unfold handleProceedToPayment.
    destruct (validateForm _ _) as [ok s2].
    destruct ok; cbn [negb]; [| exists []; by rewrite app_nil_r].
    destruct (_ =? _); [| exists []; by rewrite app_nil_r].
    unfold handlePayment.
    destruct (user _); [by eexists | exists []; by rewrite app_nil_r].
  - unfold handlePayment.
    destruct (user _); [by eexists | exists []; by rewrite app_nil_r].
  - unfold handleClose.
    destruct (bool_decide _); exists []; by rewrite app_nil_r.
Qed.

(** X14: Nothing the user or the parent does cancels a handler that waits for
    an answer.  In particular a payment that waits for the storage probe
    survives the closing of the modal: when the probe answers without
    reporting the missing table, the workflow enters the processing step
    and [initiateEnrollment] is called with the data of the render the
    payment was triggered in. *)
Theorem nothing_cancelled up es : forall w n item,
  forallb (fun e => negb (isAnswer e)) es = true ->
  pending w !! n = Some item ->
  let w' := run up w es in
  pending w' !! n = Some item
  /\ (forall cl u o,
        item = AwaitProbe cl u -> reportsNotFound o = false ->
        let w2 := deliver n (GotProbe o) w' in
        step (st w2) = processing
        /\ last (log w2)
           = Some (InitiateEnrollment (user_id u)
                     (course_id (course (r_props cl)))
                     (finalPrice (r_state cl)) (email (formData (r_state cl)))
                     (userName (formData (r_state cl)))
                     (phoneNumber (formData (r_state cl)))
                     (bool_decide (paymentMethod (r_state cl) = eversend)))).
Proof.
  assert (Hkeep : forall es' w n item,
            forallb (fun e => negb (isAnswer e)) es' = true ->
            pending w !! n = Some item ->
            pending (run up w es') !! n = Some item).
  { induction es' as [| e es' IH]; intros w n item Hes Hp; [exact Hp |].
    cbn [forallb] in Hes. apply andb_true_iff in Hes as [He Hes].
    apply negb_true_iff in He.
    cbn [run fold_left]. apply IH; [exact Hes |].
    destruct (dispatch_keeps_pending up w e He) as [added ->].
    by apply lookup_app_l_Some. }
  intros w n item Hes Hp w'.
  pose proof (Hkeep es w n item Hes Hp) as Hp'. fold w' in Hp'.
  split; [exact Hp' |].
  intros cl u o -> Ho w2. subst w2. unfold deliver. rewrite Hp'.
  destruct (probed_passes cl u o (resume n w') Ho) as (w0 & -> & _).
  destruct (startProcessing_spec cl u w0) as (Hstep & _ & _ & Hlog).
  split; [exact Hstep |]. rewrite Hlog. apply last_snoc.
Qed.

Lemma nothing_cancelled_witness :
  let w := run asciiUpperCase (mount props1 emptyBrowser) toPaymentScreen in
  let w1 := dispatch asciiUpperCase w ClickPay in
  let w' := run asciiUpperCase w1
              [ClickClose; Rerender (withIsOpen false props1)] in
  let w2 := deliver 0 (GotProbe (ProbeReturns None)) w' in
  (pending w1 !! 0%nat = Some (AwaitProbe (render w) user1)
   /\ isOpen (props w') = false /\ step (st w') = details)
  /\ step (st w2) = processing
  /\ last (log w2)
     = Some (InitiateEnrollment (js "u1") (js "c1") 50000 (js "ada@x.org")
               (js "Ada Lovelace") (js "+256700") true).
Proof.
  intros w w1 w' w2. split; [repeat split |].
  destruct (nothing_cancelled asciiUpperCase
              [ClickClose; Rerender (withIsOpen false props1)]
              w1 0 (AwaitProbe (render w) user1) eq_refl eq_refl)
    as [_ H].
  exact (H (render w) user1 (ProbeReturns None) eq_refl eq_refl).
Defined.

(** ** Screens and the calls behind them *)

(** Settles the evidence for a world given by the setters and emissions
    of one handler. *)
Ltac evidence_leaf :=
  unfold stepEvidence, paymentCatch;
  cbn [st log step enrollmentId withState withBrowser withProps emit suspend
       resume setStep setFormData setCoursePrice setPaymentMethod
       setErrorMessage setEnrollmentId setPromoCode setPromoValidating
       setPromoError setPromoDiscount setFinalPrice handleInputChange
       handlePromoChange];
  rewrite ?countIf_app; cbn [countIf isInitiate isSetTimeout];
  repeat split; intros Hx; try discriminate Hx;
  try (match goal with H : _ -> (1 <= _)%nat |- _ => specialize (H Hx) end);
  try (by destruct Hx); lia.

Lemma stepEvidence_dispatch up w e :
  paymentBooks w -> stepEvidence w -> stepEvidence (dispatch up w e).
Proof.
  intros (_ & Hbooks & _) (Hproc & Hsucc & Hid).
  unfold dispatch. destruct (enabled w e) eqn:Hen; [| done].
  destruct e as [p | i value checked | value | | | m | | | | | n r];
    cbn [handle].
  - unfold rerender. destruct (_ && _); [done |].
    unfold fetchEffect. destruct (_ || _); [done |]. evidence_leaf.
  - evidence_leaf.
  - evidence_leaf.
  - unfold handleValidatePromo. destruct (negb _); evidence_leaf.
  - unfold handleProceedToPayment.
    destruct (validateForm_writes (render w)
                (st (withState (setErrorMessage None) w))) as [Hwr | [m Hwr]];
      destruct (validateForm _ _) as [ok s2]; cbn [snd] in Hwr; subst s2;
      (destruct ok; cbn [negb]; [| evidence_leaf]);
      (destruct (_ =? _); [| evidence_leaf]);
      unfold handlePayment; destruct (user _); evidence_leaf.
  - evidence_leaf.
  - evidence_leaf.
  - unfold handlePayment. destruct (user _); evidence_leaf.
  - evidence_leaf.
  - unfold handleClose. destruct (bool_decide _); evidence_leaf.
  - unfold deliver.
    destruct (pending w !! n) as [[| cl | cl u | cl u |] |] eqn:Hp;
      destruct r as [o | o | o | o |]; try done.
    + destruct o as [t | r]; cbn [fetchCoursePrice_resume]; [evidence_leaf |].
      destruct (fetchError r), (data r); evidence_leaf.
    + destruct o as [t | r]; cbn [handleValidatePromo_resume];
        [evidence_leaf |].
      destruct (valid r), (final_price r); evidence_leaf.
    + destruct o as [t | [e |]]; cbn [handlePayment_probed];
        [| destruct (bool_decide _) |]; unfold startProcessing; evidence_leaf.
    + pose proof (countIf_delete isAwaitInitiate _ _ _ Hp) as Hone.
      cbn [isAwaitInitiate] in Hone.
      destruct o as [t | r]; cbn [handlePayment_initiated]; [evidence_leaf |].
      destruct (negb (r_success r)); [evidence_leaf |].
      destruct (orNull (r_paymentUrl r)) as [url |]; [| evidence_leaf].
      unfold redirectToProvider. cbn [browser withState resume].
      destruct (setItemThrows (browser w)); evidence_leaf.
    + unfold successTimer. evidence_leaf.
Qed.

(** X11: In every run the processing screen is only ever shown after
    [initiateEnrollment] was called, the success screen only after the
    timer that notifies the caller was set, and an enrollment id is only
    ever held after [initiateEnrollment] was called. *)
Theorem screens_follow_calls up p b es :
  let w := run up (mount p b) es in
  (step (st w) = processing -> (1 <= countIf isInitiate (log w))%nat)
  /\ (step (st w) = success -> (1 <= countIf isSetTimeout (log w))%nat)
  /\ (is_Some (enrollmentId (st w)) -> (1 <= countIf isInitiate (log w))%nat).
Proof.
  intros w.
  assert (Hrun : forall es' w0, paymentBooks w0 -> stepEvidence w0 ->
                                stepEvidence (run up w0 es')).
  { induction es' as [| e es' IH]; intros w0 Hb He; [exact He |].
    apply IH.
    - apply (paymentBooks_step w0); [exact Hb | apply dispatch_transition].
    - by apply stepEvidence_dispatch. }
  apply Hrun.
  - apply (paymentBooks_step (firstRender p b));
      [repeat split; cbn; lia | apply mount_transition].
  - unfold mount, fetchEffect.
    destruct (_ || _); repeat split; cbn; try discriminate;
      by intros [? ?].
Qed.

(** ** Promo codes are upper-cased *)

Lemma promoCode_dispatch up w e :
  promoCode (st (dispatch up w e)) = promoCode (st w)
  \/ exists v, promoCode (st (dispatch up w e)) = up v.
Proof.
  unfold dispatch. destruct (enabled w e); [| by left].
  destruct e as [p | i value checked | value | | | m | | | | | n r];
    cbn [handle]; try (by left).
  - left. by destruct (rerender_state p w) as [-> _].
  - right. by exists value.
  - left. unfold handleValidatePromo. by destruct (negb _).
  - left. unfold handleProceedToPayment.
    destruct (validateForm_writes (render w)
                (st (withState (setErrorMessage None) w))) as [Hwr | [m Hwr]];
      destruct (validateForm _ _) as [ok s2]; cbn [snd] in Hwr; subst s2;
      (destruct ok; cbn [negb]; [| done]);
      (destruct (_ =? _); [| done]);
      unfold handlePayment; by destruct (user _).
  - left. unfold handlePayment. by destruct (user _).
  - left. unfold handleClose. by destruct (bool_decide _).
  - left. unfold deliver.
    destruct (pending w !! n) as [[| cl | cl u | cl u |] |];
      destruct r as [o | o | o | o |]; try done.
    + destruct o as [t | r]; cbn [fetchCoursePrice_resume]; [done |].
      by destruct (fetchError r), (data r).
    + destruct o as [t | r]; cbn [handleValidatePromo_resume]; [done |].
      by destruct (valid r), (final_price r).
    + destruct o as [t | [e |]]; cbn [handlePayment_probed];
        [| destruct (bool_decide _) |]; done.
    + destruct o as [t | r]; cbn [handlePayment_initiated]; [done |].
      destruct (negb (r_success r)); [done |].
      destruct (orNull (r_paymentUrl r)) as [url |]; [| done].
      unfold redirectToProvider. cbn [browser withState resume].
      by destruct (setItemThrows (browser w)).
Qed.

Lemma codesUpperCased_dispatch up w e :
  codesUpperCased up w -> codesUpperCased up (dispatch up w e).
Proof.
  intros [Hcode Hlog]. split.
  - destruct (promoCode_dispatch up w e) as [-> | Hup]; [exact Hcode |].
    by right.
  - pose proof (dispatch_transition up w e) as HT.
    transition_cases HT; rewrite ?Forall_app; repeat split; try exact Hlog;
      repeat constructor.
    destruct Hcode as [Hempty | Hup]; [| exact Hup].
    match goal with H : blank _ = false |- _ => rewrite Hempty in H end.
    discriminate.
Qed.

(** X2: In every run each promo code sent to [validatePromoCode] is a result
    of the upper-casing the input handler applies: no code reaches the
    collaborator as it was typed. *)
Theorem promo_code_upper_cased up p b es promo courseId basePrice :
  ValidatePromoCode promo courseId basePrice ∈ log (run up (mount p b) es) ->
  exists typed, promo = up typed.
Proof.
  intros Hin.
  assert (Hrun : forall es' w0, codesUpperCased up w0 ->
                                codesUpperCased up (run up w0 es')).
  { induction es' as [| e es' IH]; intros w0 H0; [exact H0 |].
    apply IH. by apply codesUpperCased_dispatch. }
  assert (H0 : codesUpperCased up (mount p b)).
  { unfold mount, fetchEffect.
    destruct (_ || _); (split; [by left | repeat constructor]). }
  destruct (Hrun es _ H0) as [_ Hlog].
  exact (proj1 (Forall_forall _ _) Hlog _ Hin).
Qed.

Lemma promo_code_upper_cased_witness :
  let w := run asciiUpperCase (mount props1 emptyBrowser) save20Applied in
  ValidatePromoCode (js "SAVE20") (js "c1") 50000 ∈ log w
  /\ exists typed, js "SAVE20" = asciiUpperCase typed.
Proof.
  intros w.
  assert (Hin : ValidatePromoCode (js "SAVE20") (js "c1") 50000 ∈ log w).
  { apply list_elem_of_lookup. exists 1%nat. reflexivity. }
  split; [exact Hin |].
  exact (promo_code_upper_cased asciiUpperCase props1 emptyBrowser
           save20Applied _ _ _ Hin).
Defined.
